(** * bigml/association.py: the local Association (rule explorer)

    A shallow embedding of [src/bigml/association.py] (Python 2.7) and the
    properties of its filters, its description renderer, its metric
    formatter and its summary builder.

    Layout: the Python run-time pieces the module relies on (exceptions,
    list indexing and slicing, [float] formatting), the data model, the
    functions of the module in source order, then the theorems. *)

From Stdlib Require Import ZArith Floats String Ascii List Lia DecimalString.
From stdpp Require Import base option list gmap strings.

#[local] Set Warnings "-inexact-float".
#[local] Open Scope Z_scope.

(** ** Python floats

    A Python [float] is an IEEE 754 binary64 number: Rocq's primitive
    [float].  Conversions to text are exact computations on the decoded
    mantissa and exponent ([Prim2SF]), as CPython's [dtoa.c] performs
    them. *)
Module PyFloat.

(** Ties of a decimal rounding: [%f] and [%g] round half to even
    (correct rounding of the exact binary value), [round()] of
    Python 2 rounds half away from zero. *)
Inductive tie := HalfEven | HalfAway.

(** [num / den] rounded to the nearest integer, for [0 <= num] and
    [0 < den]. *)
Definition round_div (t : tie) (num den : Z) : Z :=
  let q := num / den in
  let r := num mod den in
  match (2 * r ?= den) with
  | Lt => q
  | Gt => q + 1
  | Eq => match t with
          | HalfAway => q + 1
          | HalfEven => if Z.even q then q else q + 1
          end
  end.

(** The positive rational [m * 2^e * 10^k] as a fraction. *)
Definition scale10 (m : positive) (e k : Z) : Z * Z :=
  (Z.pos m * 2 ^ Z.max e 0 * 10 ^ Z.max k 0,
   2 ^ Z.max (- e) 0 * 10 ^ Z.max (- k) 0).

Definition sign_string (s : bool) : string := if s then "-" else "".

(** [str(n)] of an integer. *)
Definition str_int (n : Z) : string := NilZero.string_of_int (Z.to_int n).

Definition zeros (n : nat) : string := string_of_list_ascii (repeat "0"%char n).

(** [n] written with at least [w] digits. *)
Definition pad_left (w : nat) (s : string) : string :=
  zeros (w - String.length s) +:+ s.

(** The digits of [n / 10^prec] in fixed notation. *)
Definition fixed_digits (n : Z) (prec : nat) : string :=
  let p := 10 ^ Z.of_nat prec in
  str_int (n / p) +:+
  match prec with
  | O => ""
  | _ => "." +:+ pad_left prec (str_int (n mod p))
  end.

(** ["%.<prec>f" % x] (Python 2.7 keeps the fixed notation for every
    magnitude). *)
Definition format_f (prec : nat) (x : float) : string :=
  match Prim2SF x with
  | S754_nan => "nan"
  | S754_infinity s => sign_string s +:+ "inf"
  | S754_zero s => sign_string s +:+ fixed_digits 0 prec
  | S754_finite s m e =>
      let '(num, den) := scale10 m e (Z.of_nat prec) in
      sign_string s +:+ fixed_digits (round_div HalfEven num den) prec
  end.

(** The nearest binary64 to [(-1)^s * n / 10^k] ([strtod]): the
    correctly rounded quotient of the two integers. *)
Definition of_decimal (s : bool) (n : Z) (k : nat) : float :=
  match n with
  | Z.pos p =>
      SF2Prim (SFdiv prec emax (S754_finite s p 0)
                 (S754_finite false (Z.to_pos (10 ^ Z.of_nat k)) 0))
  | _ => SF2Prim (S754_zero s)
  end.

(** [round(x, ndigits)] for [ndigits >= 0]: the exact value of [x] is
    rounded to [ndigits] decimals, half away from zero, and the decimal
    is read back as a float ([_Py_double_round]). *)
Definition round (x : float) (ndigits : nat) : float :=
  match Prim2SF x with
  | S754_finite s m e =>
      let '(num, den) := scale10 m e (Z.of_nat ndigits) in
      of_decimal s (round_div HalfAway num den) ndigits
  | _ => x
  end.

(** The largest [k'] in [k, k + fuel] with [10^k' * den <= num], searched
    upwards ([num / den] is the magnitude of a float, so its decimal
    exponent is between -324 and 308). *)
Fixpoint exponent10 (fuel : nat) (k : Z) (num den : Z) : Z :=
  match fuel with
  | O => k
  | S fuel' =>
      if (10 ^ Z.max (k + 1) 0 * den <=? 10 ^ Z.max (- (k + 1)) 0 * num)
      then exponent10 fuel' (k + 1) num den
      else k
  end.

Fixpoint strip_zeros_rev (l : list ascii) : list ascii :=
  match l with
  | "0"%char :: l' => strip_zeros_rev l'
  | _ => l
  end.

(** Trailing zeros removed, the first digit kept. *)
Definition strip_trailing_zeros (s : string) : string :=
  match list_ascii_of_string s with
  | [] => ""
  | c :: l => string_of_list_ascii (c :: rev (strip_zeros_rev (rev l)))
  end.

(** The significant digits of [m * 2^e] rounded to [precision] places
    and the position of the decimal point ([_Py_dg_dtoa], mode 2). *)
Definition digits (precision : nat) (m : positive) (e : Z) : string * Z :=
  let '(num, den) := scale10 m e 0 in
  let k := exponent10 640 (-330) num den in
  let '(n1, d1) := scale10 m e (Z.of_nat precision - 1 - k) in
  let n := round_div HalfEven n1 d1 in
  let '(n, k) := if 10 ^ Z.of_nat precision <=? n then (n / 10, k + 1) else (n, k) in
  (strip_trailing_zeros (str_int n), k + 1).

(** The exponent of the [e] notation: a sign and at least two digits. *)
Definition exponent_string (x : Z) : string :=
  (if x <? 0 then "-" else "+") +:+ pad_left 2 (str_int (Z.abs x)).

(** [str(x)] of a float: ["%.12g"], with [.0] added to what would read
    as an integer ([PyOS_double_to_string(x, 'g', 12, Py_DTSF_ADD_DOT_0)]). *)
Definition str (x : float) : string :=
  match Prim2SF x with
  | S754_nan => "nan"
  | S754_infinity s => sign_string s +:+ "inf"
  | S754_zero s => sign_string s +:+ "0.0"
  | S754_finite s m e =>
      let '(ds, decpt) := digits 12 m e in
      let len := Z.of_nat (String.length ds) in
      sign_string s +:+
      (if (decpt <=? -4) || (12 <? decpt) then
         substring 0 1 ds +:+
         (if 1 <? len then "." +:+ substring 1 (String.length ds - 1) ds else "") +:+
         "e" +:+ exponent_string (decpt - 1)
       else if decpt <=? 0 then
         "0." +:+ zeros (Z.to_nat (- decpt)) +:+ ds
       else if decpt <? len then
         substring 0 (Z.to_nat decpt) ds +:+ "." +:+
         substring (Z.to_nat decpt) (String.length ds - Z.to_nat decpt) ds
       else
         ds +:+ zeros (Z.to_nat (decpt - len)) +:+ ".0")
  end.

End PyFloat.

#[local] Open Scope string_scope.
#[local] Open Scope Z_scope.
#[local] Open Scope list_scope.

(** ** Python run-time: exceptions, sequences, text *)

(** The exceptions the module can raise.  [ValueError] is what the spec
    calls [UnknownField] and [InvalidArgument]. *)
Inductive exn :=
  | ValueError (msg : string)
  | IndexError
  | NameError
  | UnboundLocalError
  | AttributeError
  | TypeError.

(** A call either returns a value or raises. *)
Inductive result (A : Type) :=
  | Ok (a : A)
  | Raise (e : exn).
Arguments Ok {A} a.
Arguments Raise {A} e.

#[global] Instance result_ret : MRet result := λ A a, Ok a.
#[global] Instance result_bind : MBind result := λ A B f m,
  match m with
  | Ok a => f a
  | Raise e => Raise e
  end.

(** [l[i]]: a negative index counts from the end. *)
Definition py_getitem {A} (l : list A) (i : Z) : result A :=
  let n := Z.of_nat (length l) in
  let j := if i <? 0 then i + n else i in
  if (0 <=? j) && (j <? n) then
    match l !! Z.to_nat j with
    | Some a => Ok a
    | None => Raise IndexError
    end
  else Raise IndexError.

(** [l[0:n]]: a negative bound counts from the end. *)
Definition py_slice_to {A} (l : list A) (n : Z) : list A :=
  if n <? 0 then take (length l - Z.to_nat (- n)) l else take (Z.to_nat n) l.

(** [for x in l: ys.append(f(x))], stopped by the first exception. *)
Fixpoint map_loop {A B} (f : A → result B) (l : list A) : result (list B) :=
  match l with
  | [] => Ok []
  | x :: l' => y ← f x; ys ← map_loop f l'; Ok (y :: ys)
  end.

(** [for x in l: if test(x): ys.append(x)], stopped by the first
    exception. *)
Fixpoint filter_loop {A} (test : A → result bool) (l : list A) : result (list A) :=
  match l with
  | [] => Ok []
  | x :: l' => b ← test x; ys ← filter_loop test l'; Ok (if b : bool then x :: ys else ys)
  end.

Definition nl : string := String "010" "".

(** ** Data model *)

(** Modelled from the spec: the class [Item] (bigml/item.py) is not among
    the sources.  Its attributes are those of the spec's data model;
    [Item_describe] is what the method [describe()] returns, the item's
    full description (field name and value). *)
Record Item := {
  index : Z;
  field_id : string;
  name : string;
  complement : bool;
  Item_describe : string;
}.

(** A metric is a number or a [[fraction, count]] list. *)
Inductive metric_value :=
  | Scalar (x : float)
  | Pair (fraction : float) (count : Z).

(** Modelled from the spec: the class [AssociationRule]
    (bigml/associationrule.py) is not among the sources.  The attributes
    are those of the spec's data model: the two coverages are a scalar or
    a pair, the other metrics are numbers. *)
Record AssociationRule := {
  rule_id : string;
  lhs : list Z;
  rhs : list Z;
  lhs_cover : metric_value;
  rhs_cover : metric_value;
  support : float;
  confidence : float;
  leverage : float;
  lift : float;
  p_value : float;
}.

(** Modelled from the spec: the attribute [strength] that [get_rules]
    reads denotes the confidence. *)
Definition strength (rule : AssociationRule) : float := confidence rule.

(** The cells of a CSV row. *)
Inductive cell :=
  | CStr (s : string)
  | CIdx (l : list Z)
  | CNum (x : float)
  | CInt (n : Z)
  | CNone.

(** Modelled from the spec: [AssociationRule.to_CSV] is not among the
    sources.  The row is [[rule_id, lhs, rhs, metrics...]], the metrics
    in the order of [RULE_HEADERS]: a coverage pair gives its percentage
    and its count. *)
Definition cover_cells (v : metric_value) : list cell :=
  match v with
  | Scalar x => [CNum (x * 100)%float; CNone]
  | Pair fraction count => [CNum (fraction * 100)%float; CInt count]
  end.

Definition to_CSV (rule : AssociationRule) : list cell :=
  [CStr (rule_id rule); CIdx (lhs rule); CIdx (rhs rule)]
    ++ cover_cells (lhs_cover rule)
    ++ cover_cells (Scalar (support rule))
    ++ [CNum (confidence rule); CNum (leverage rule); CNum (lift rule);
        CNum (p_value rule)]
    ++ cover_cells (rhs_cover rule).

(** The attributes of [Association] that its methods read.  [fields]
    (field ID to field name) and [inverted_fields] (field name to field
    ID) are set by [ModelFields.__init__], which is not among the
    sources; the scalar settings ([k], [max_lhs], ...) are read by no
    method. *)
Record Association := {
  fields : gmap string string;
  inverted_fields : gmap string string;
  items : list Item;
  rules : list AssociationRule;
}.

(** What a caller can put in [item_list]: [Item] objects, strings, or
    something else (an integer stands for the values that are neither). *)
Inductive pyobj :=
  | PItem (item : Item)
  | PStr (s : string)
  | PInt (n : Z).

#[global] Instance Item_eq_dec : EqDecision Item.
Proof. solve_decision. Defined.

#[global] Instance pyobj_eq_dec : EqDecision pyobj.
Proof. solve_decision. Defined.

(** ** Module constants *)

Module Metric.
(** The names in [ASSOCIATION_METRICS]. *)
Inductive t := lhs_cover | support | confidence | leverage | lift | p_value.

#[global] Instance eq_dec : EqDecision t.
Proof. solve_decision. Defined.
End Metric.

Definition RULE_HEADERS : list string :=
  ["Rule ID"; "Antecedent"; "Consequent"; "Antecedent Coverage %";
   "Antecedent Coverage"; "Support %"; "Support"; "Confidence";
   "Leverage"; "Lift"; "p-value"; "Consequent Coverage %";
   "Consequent Coverage"].

Definition ASSOCIATION_METRICS : list Metric.t :=
  [Metric.lhs_cover; Metric.support; Metric.confidence;
   Metric.leverage; Metric.lift; Metric.p_value].

Definition METRIC_LITERALS (metric : Metric.t) : string :=
  match metric with
  | Metric.confidence => "Confidence"
  | Metric.support => "Support"
  | Metric.leverage => "Leverage"
  | Metric.lhs_cover => "Coverage"
  | Metric.p_value => "p-value"
  | Metric.lift => "Lift"
  end.

Definition INDENT : string := "    ".

(** The attribute name of a metric. *)
Definition metric_name (metric : Metric.t) : string :=
  match metric with
  | Metric.lhs_cover => "lhs_cover"
  | Metric.support => "support"
  | Metric.confidence => "confidence"
  | Metric.leverage => "leverage"
  | Metric.lift => "lift"
  | Metric.p_value => "p_value"
  end.

(** [getattr(rule, metric)]. *)
Definition getattr (rule : AssociationRule) (metric : Metric.t) : metric_value :=
  match metric with
  | Metric.lhs_cover => lhs_cover rule
  | Metric.support => Scalar (support rule)
  | Metric.confidence => Scalar (confidence rule)
  | Metric.leverage => Scalar (leverage rule)
  | Metric.lift => Scalar (lift rule)
  | Metric.p_value => Scalar (p_value rule)
  end.

(** ** [get_metric_string] *)

(** One turn of the loop over [ASSOCIATION_METRICS]: [metric_key] is
    computed and never read. *)
Definition metric_fragment (rule : AssociationRule) (reverse : bool)
    (metric : Metric.t) : string :=
  let metric_key :=
    if reverse && bool_decide (metric = Metric.lhs_cover)
    then "rhs_cover" else metric_name metric in
  let metric_value := getattr rule metric in
  match metric_value with
  | Pair fraction count =>
      METRIC_LITERALS metric +:+ "=" +:+
      PyFloat.format_f 2 (PyFloat.round fraction 4 * 100)%float +:+ "% (" +:+
      PyFloat.str_int count +:+ ")"
  | Scalar x =>
      if bool_decide (metric = Metric.confidence) then
        METRIC_LITERALS metric +:+ "=" +:+
        PyFloat.format_f 2 (PyFloat.round x 4 * 100)%float +:+ "%"
      else
        METRIC_LITERALS metric +:+ "=" +:+ PyFloat.str x
  end.

Definition get_metric_string (rule : AssociationRule) (reverse : bool) : string :=
  String.concat "; " (metric_fragment rule reverse <$> ASSOCIATION_METRICS).

(** ** [Association.get_items] *)

(** [if field:] is the truth value of the argument: [None] and the empty
    string are false. *)
Definition truthy (field : option string) : bool :=
  match field with
  | Some f => negb (bool_decide (f = ""))
  | None => false
  end.

(** The local [field_id] after the first statement: [None] while it is
    unbound. *)
Definition resolve_field (self : Association) (field : option string)
    : result (option string) :=
  match field with
  | Some f =>
      if truthy field then
        if bool_decide (is_Some (fields self !! f)) then Ok (Some f)
        else match inverted_fields self !! f with
             | Some id => Ok (Some id)
             | None => Raise (ValueError
                 ("Failed to find a field name or ID corresponding to " +:+ f +:+ "."))
             end
      else Ok None
  | None => Ok None
  end.

Definition filter_function_set {A} (filter_function : option (A → bool)) (x : A) : bool :=
  match filter_function with
  | None => true
  | Some f => f x
  end.

(** [local_field_id] is the local [field_id] of [get_items]: [None] while
    it is unbound. *)
Definition field_filter (field local_field_id : option string) (item : Item)
    : result bool :=
  match field with
  | None => Ok true
  | Some _ =>
      match local_field_id with
      | Some id => Ok (bool_decide (field_id item = id))
      | None => Raise NameError
      end
  end.

(** [item.name in names]: a string equals no object of another type. *)
Definition names_filter (names : option (list pyobj)) (item : Item) : bool :=
  match names with
  | None => true
  | Some l => bool_decide (PStr (name item) ∈ l)
  end.

(** The three tests are the items of a list that is built before [all]
    reads it: each is evaluated for every item.  [filter_function] is
    taken to return a truth value without raising. *)
Definition get_items (self : Association) (field : option string)
    (names : option (list pyobj)) (filter_function : option (Item → bool))
    : result (list Item) :=
  local_field_id ← resolve_field self field;
  filter_loop (λ item,
      b ← field_filter field local_field_id item;
      Ok (b && names_filter names item && filter_function_set filter_function item))
    (items self).

(** ** [Association.get_rules] *)

(** [leverage], [strength], [support], [p_value]: a lower bound that is
    [None] always holds. *)
Definition at_least (minimum : option float) (value : float) : bool :=
  match minimum with
  | None => true
  | Some m => (m <=? value)%float
  end.

(** [item.index] on an element of [item_list]: a string has a method of
    that name (an object equal to no integer), an integer has no such
    attribute. *)
Definition index_attr (o : pyobj) : result (option Z) :=
  match o with
  | PItem item => Ok (Some (index item))
  | PStr _ => Ok None
  | PInt _ => Raise AttributeError
  end.

(** [for item_index in l: if item_index in items: return True], with
    [items = None] while the local is unbound. *)
Fixpoint any_in (items : option (list (option Z))) (l : list Z) : result bool :=
  match l with
  | [] => Ok false
  | item_index :: l' =>
      match items with
      | None => Raise UnboundLocalError
      | Some its =>
          if bool_decide (Some item_index ∈ its) then Ok true else any_in items l'
      end
  end.

Definition item_list_set (self : Association) (item_list : option (list pyobj))
    (rule : AssociationRule) : result bool :=
  match item_list with
  | None => Ok true
  | Some il =>
      first ← py_getitem il 0;
      items ← match first with
               | PItem _ => its ← map_loop index_attr il; Ok (Some its)
               | PStr _ =>
                   its ← get_items self None (Some il) None;
                   Ok (Some (fmap (M := list) (λ item, Some (index item)) its))
               | PInt _ => Ok None
               end;
      found ← any_in items (lhs rule);
      if found : bool then Ok true else any_in items (rhs rule)
  end.

(** The six tests are the items of a list that is built before [all]
    reads it: [item_list_set] is evaluated, and can raise, for every rule. *)
Definition get_rules (self : Association)
    (min_leverage min_strength min_support min_p_value : option float)
    (item_list : option (list pyobj))
    (filter_function : option (AssociationRule → bool))
    : result (list AssociationRule) :=
  filter_loop (λ rule,
      listed ← item_list_set self item_list rule;
      Ok (at_least min_leverage (leverage rule)
          && at_least min_strength (strength rule)
          && at_least min_support (support rule)
          && at_least min_p_value (p_value rule)
          && listed
          && filter_function_set filter_function rule))
    (rules self).

(** ** [Association.describe] *)

(** The text of one item of a rule. *)
Definition item_description (self : Association) (item : Item) : string :=
  if bool_decide (size (fields self) = 1%nat) && negb (complement item)
  then name item else Item_describe item.

(** The inner loop and the join, on the cell [rule_row[index]]: a list of
    indices is iterated; the characters of a string and the other values
    raise [TypeError] (as a list index, or as not iterable). *)
Definition describe_cell (self : Association) (c : cell) : result string :=
  match c with
  | CIdx l =>
      description ← map_loop (λ item_index,
          item ← py_getitem (items self) item_index;
          Ok (item_description self item)) l;
      Ok (String.concat " & " description)
  | CStr "" => Ok ""
  | _ => Raise TypeError
  end.

(** One turn of [for index in range(1, 3)] on the list object [rule_row]:
    the content of the object after the turn, and how the turn ended. *)
Definition describe_slot (self : Association) (rule_row : list cell) (index : Z)
    : list cell * result unit :=
  match (c ← py_getitem rule_row index; describe_cell self c) with
  | Ok description => (<[Z.to_nat index := CStr description]> rule_row, Ok tt)
  | Raise e => (rule_row, Raise e)
  end.

(** The two turns: the final content of the list object. *)
Definition describe_list (self : Association) (rule_row : list cell)
    : list cell * result unit :=
  let '(row1, r1) := describe_slot self rule_row 1 in
  match r1 with
  | Ok _ => describe_slot self row1 2
  | Raise e => (row1, Raise e)
  end.

(** Rows are Python lists, mutable objects that callers hold by
    reference: the store maps a reference to the content of its list. *)
Definition ref := positive.

Record store := {
  this : Association;
  lists : gmap ref (list cell);
}.

(** [describe(rule_row)]: the list that [rule_row] refers to is updated
    in place and the same reference is returned. *)
Definition describe (rule_row : ref) (σ : store) : store * result ref :=
  let '(row, r) := describe_list (this σ) (default [] (lists σ !! rule_row)) in
  ({| this := this σ; lists := <[rule_row := row]> (lists σ) |},
   _ ← r; Ok rule_row).

(** ** [Association.rules_CSV] *)

(** The rows handed to [writer.writerow], in order, for the file
    [file_name].  [UnicodeWriter] (bigml/io.py) is not among the sources:
    opening the file is taken to succeed.  Text is modelled by its UTF-8
    bytes, so [item.encode("utf-8")] leaves a string cell as it is. *)
Definition rules_CSV (self : Association) (file_name : option string)
    (min_leverage min_strength min_support min_p_value : option float)
    (item_list : option (list pyobj))
    (filter_function : option (AssociationRule → bool))
    : result (list (list cell)) :=
  rules ← get_rules self min_leverage min_strength min_support min_p_value
             item_list filter_function;
  rules ← map_loop (λ rule,
               let '(rule_row, described) := describe_list self (to_CSV rule) in
               _ ← described; Ok rule_row) rules;
  match file_name with
  | None => Raise (ValueError "A valid file name is required to store the rules.")
  | Some _ => Ok ((CStr <$> RULE_HEADERS) :: rules)
  end.

(** ** [Association.summarize] *)

(** [a < b] on metric values (CPython 2): numbers by value, lists item
    by item, and a number before any list. *)
Definition metric_lt (a b : metric_value) : bool :=
  match a, b with
  | Scalar x, Scalar y => (x <? y)%float
  | Scalar _, Pair _ _ => true
  | Pair _ _, Scalar _ => false
  | Pair f1 c1, Pair f2 c2 => if (f1 =? f2)%float then c1 <? c2 else (f1 <? f2)%float
  end.

(** [sorted(l, key=key, reverse=True)]: a stable sort, largest key
    first, rules of equal key in their original order.  (The comparison
    is assumed consistent, as the sort of CPython assumes: no key is a
    NaN.) *)
Fixpoint insert_desc {A} (key : A → metric_value) (x : A) (l : list A) : list A :=
  match l with
  | [] => [x]
  | y :: l' =>
      if metric_lt (key x) (key y) then y :: insert_desc key x l' else x :: l
  end.

Definition sorted_desc {A} (key : A → metric_value) (l : list A) : list A :=
  foldr (insert_desc key) [] l.

(** ["%s" % c] for a cell of a row (the indices of a rule are machine
    integers). *)
Definition str_cell (c : cell) : string :=
  match c with
  | CStr s => s
  | CIdx l => "[" +:+ String.concat ", " (PyFloat.str_int <$> l) +:+ "]"
  | CNum x => PyFloat.str x
  | CInt n => PyFloat.str_int n
  | CNone => "None"
  end.

(** The inner loop over [top_rules]: the label and the connector of
    [rule], set by every rule that mirrors it. *)
Definition mirrors (rule : AssociationRule) (metric_string : string)
    (item : AssociationRule) : bool :=
  bool_decide (rhs rule = lhs item) && bool_decide (lhs rule = rhs item)
  && bool_decide (metric_string = get_metric_string item true).

Definition pair_scan (rule : AssociationRule) (metric_string : string)
    (top_rules : list AssociationRule) : string * string :=
  fold_left (λ acc item,
      if mirrors rule metric_string item
      then ("Rules " +:+ rule_id rule +:+ ", " +:+ rule_id item +:+ ": ", "<->")
      else acc)
    top_rules ("Rule " +:+ rule_id rule +:+ ": ", "->").

(** What one turn of the loop over the candidates computes before the
    test on [ref_rules]. *)
Record candidate := {
  rule_id_string : string;
  operator : string;
  out_rule : string;
  reverse_rule : string;
}.

Definition render (self : Association) (top_rules : list AssociationRule)
    (rule : AssociationRule) : result candidate :=
  let '(rule_row, described) := describe_list self (to_CSV rule) in
  _ ← described;
  let metric_string := get_metric_string rule false in
  let '(rule_id_string, operator) := pair_scan rule metric_string top_rules in
  antecedent ← py_getitem rule_row 1;
  consequent ← py_getitem rule_row 2;
  Ok {| rule_id_string := rule_id_string;
        operator := operator;
        out_rule := str_cell antecedent +:+ " " +:+ operator +:+ " " +:+
                    str_cell consequent +:+ " [" +:+ metric_string +:+ "]";
        reverse_rule := str_cell consequent +:+ " " +:+ operator +:+ " " +:+
                        str_cell antecedent +:+ " [" +:+ metric_string +:+ "]" |}.

(** The locals of the loop over the candidates. *)
Record loop_state := {
  out_rules : list string;
  ref_rules : list string;
  counter : Z;
}.

(** The test that guards the emission of a candidate. *)
Definition accepted (c : candidate) (st : loop_state) : bool :=
  bool_decide (operator c = "->") || negb (bool_decide (reverse_rule c ∈ ref_rules st)).

(** ["%s%s%s" % (INDENT * 2, rule_id_string, out_rule)]. *)
Definition emitted_line (c : candidate) : string :=
  INDENT +:+ INDENT +:+ rule_id_string c +:+ out_rule c.

(** The body of the [if]: the line is recorded and emitted. *)
Definition emit (c : candidate) (st : loop_state) : loop_state :=
  {| ref_rules := ref_rules st ++ [out_rule c];
     out_rules := out_rules st ++ [emitted_line c];
     counter := counter st + 1 |}.

(** [for index, rule in enumerate(top_rules)], with its [break]. *)
Fixpoint emit_loop (self : Association) (limit : Z)
    (top_rules todo : list AssociationRule) (st : loop_state) : result loop_state :=
  match todo with
  | [] => Ok st
  | rule :: todo' =>
      c ← render self top_rules rule;
      if accepted c st then
        let st' := emit c st in
        if limit <? counter st' then Ok st'
        else emit_loop self limit top_rules todo' st'
      else emit_loop self limit top_rules todo' st
  end.

(** The candidates of a metric. *)
Definition top_rules_by (rules : list AssociationRule) (limit : Z)
    (metric : Metric.t) : list AssociationRule :=
  py_slice_to (sorted_desc (λ x, getattr x metric) rules) (limit * 2).

(** [out_rules] at the end of the turn of [metric]. *)
Definition metric_lines (self : Association) (limit : Z)
    (rules : list AssociationRule) (metric : Metric.t) : result (list string) :=
  let top_rules := top_rules_by rules limit metric in
  st ← emit_loop self limit top_rules top_rules
         {| out_rules := []; ref_rules := []; counter := 0 |};
  Ok (out_rules st).

(** ["\n\nTop %s by %s:\n\n" % (limit, METRIC_LITERALS[metric])]. *)
Definition section_header (limit : Z) (metric : Metric.t) : string :=
  nl +:+ nl +:+ "Top " +:+ PyFloat.str_int limit +:+ " by " +:+
  METRIC_LITERALS metric +:+ ":" +:+ nl +:+ nl.

(** [for metric in ASSOCIATION_METRICS]; [out] lists what was written to
    the sink, an exception leaves it as it was. *)
Fixpoint summarize_metrics (self : Association) (limit : Z)
    (rules : list AssociationRule) (metrics : list Metric.t) (out : list string)
    : list string * result unit :=
  match metrics with
  | [] => (out, Ok tt)
  | metric :: metrics' =>
      let out := out ++ [section_header limit metric] in
      match metric_lines self limit rules metric with
      | Ok lines =>
          summarize_metrics self limit rules metrics' (out ++ [String.concat nl lines])
      | Raise e => (out, Raise e)
      end
  end.

(** [summarize(out, limit, **kwargs)], the keywords being those of
    [get_rules]. *)
Definition summarize (self : Association) (out : list string) (limit : Z)
    (min_leverage min_strength min_support min_p_value : option float)
    (item_list : option (list pyobj))
    (filter_function : option (AssociationRule → bool))
    : list string * result unit :=
  match get_rules self min_leverage min_strength min_support min_p_value
          item_list filter_function with
  | Raise e => (out, Raise e)
  | Ok rules =>
      let out := out ++ ["Total number of rules: " +:+
                         PyFloat.str_int (Z.of_nat (length rules)) +:+ nl] in
      let '(out, r) := summarize_metrics self limit rules ASSOCIATION_METRICS out in
      match r with
      | Ok _ => (out ++ [nl], Ok tt)
      | Raise e => (out, Raise e)
      end
  end.

(** ** The specification's vocabulary (§4.1 and §4.2) *)

(** A lower bound is satisfied: an absent one always is. *)
Definition satisfied (minimum : option float) (value : float) : Prop :=
  match minimum with
  | None => True
  | Some m => (m <=? value)%float = true
  end.

#[global] Instance satisfied_dec minimum value : Decision (satisfied minimum value).
Proof. destruct minimum; simpl; apply _. Defined.

(** The index set an item list resolves to: the indices of the listed
    [Item]s when the list holds items ([ByItem]), the indices of the
    explorer's items whose name is listed when it holds names
    ([ByName]); any other list resolves to nothing. *)
Definition resolved_indices (self : Association) (il : list pyobj) : list Z :=
  match il with
  | PItem _ :: _ =>
      omap (λ o, match o with PItem item => Some (index item) | _ => None end) il
  | PStr _ :: _ =>
      index <$> filter (λ item, PStr (name item) ∈ il) (items self)
  | _ => []
  end.

(** The rule has an index of its [lhs] or [rhs] in the resolved set. *)
Definition related (self : Association) (il : list pyobj) (rule : AssociationRule) : Prop :=
  Exists (λ i, i ∈ resolved_indices self il) (lhs rule ++ rhs rule).

(** The rule is admitted by a call of [get_rules]. *)
Definition admitted (self : Association)
    (min_leverage min_strength min_support min_p_value : option float)
    (item_list : option (list pyobj))
    (filter_function : option (AssociationRule → bool))
    (rule : AssociationRule) : Prop :=
  satisfied min_leverage (leverage rule)
  ∧ satisfied min_strength (strength rule)
  ∧ satisfied min_support (support rule)
  ∧ satisfied min_p_value (p_value rule)
  ∧ from_option (λ il, related self il rule) True item_list
  ∧ from_option (λ f, f rule = true) True filter_function.

#[global] Instance admitted_dec self ml ms msu mp il ff rule :
  Decision (admitted self ml ms msu mp il ff rule).
Proof. unfold admitted, related. destruct il, ff; simpl; apply _. Defined.

(** An item list that [get_rules] can resolve whatever the rules are: a
    first element that is an [Item] and no element without an [index]
    attribute, or a first element that is a name. *)
Definition resolvable (il : list pyobj) : Prop :=
  match il with
  | PItem _ :: _ => Forall (λ o, match o with PInt _ => False | _ => True end) il
  | PStr _ :: _ => True
  | _ => False
  end.

(** The item is admitted by a call of [get_items] whose field resolved to
    [id]. *)
Definition item_admitted (id : string) (names : option (list pyobj))
    (filter_function : option (Item → bool)) (item : Item) : Prop :=
  field_id item = id
  ∧ from_option (λ l, PStr (name item) ∈ l) True names
  ∧ from_option (λ f, f item = true) True filter_function.

#[global] Instance item_admitted_dec id names ff item :
  Decision (item_admitted id names ff item).
Proof. unfold item_admitted. destruct names, ff; simpl; apply _. Defined.

(** The text that replaces a list of item indices in a described row. *)
Definition joined_descriptions (self : Association) (described : list Item) : string :=
  String.concat " & " (item_description self <$> described).

(** ** Vocabulary of the further properties *)

(** A lower bound at least as demanding as another. *)
Definition tighter (loose tight : option float) : Prop :=
  match loose, tight with
  | None, _ => True
  | Some m1, Some m2 => (m1 <=? m2)%float = true
  | Some _, None => False
  end.

(** An index that [self.items[i]] accepts. *)
Definition in_range (self : Association) (i : Z) : Prop :=
  - Z.of_nat (length (items self)) ≤ i < Z.of_nat (length (items self)).

(** Every index of every stored rule is accepted. *)
Definition indices_in_range (self : Association) : Prop :=
  Forall (λ rule, Forall (in_range self) (lhs rule ++ rhs rule)) (rules self).

(** The items that a list of indices refers to. *)
Definition items_at (self : Association) (l : list Z) : list Item :=
  omap (λ i, match py_getitem (items self) i with
             | Ok item => Some item
             | Raise _ => None
             end) l.

(** The row of a rule once described. *)
Definition described_row (self : Association) (rule : AssociationRule) : list cell :=
  CStr (rule_id rule)
  :: CStr (joined_descriptions self (items_at self (lhs rule)))
  :: CStr (joined_descriptions self (items_at self (rhs rule)))
  :: drop 3 (to_CSV rule).

(** The item passes the name and predicate tests of [get_items]. *)
Definition item_selected (names : option (list pyobj))
    (filter_function : option (Item → bool)) (item : Item) : Prop :=
  from_option (λ l, PStr (name item) ∈ l) True names
  ∧ from_option (λ f, f item = true) True filter_function.

#[global] Instance item_selected_dec names ff item :
  Decision (item_selected names ff item).
Proof. unfold item_selected. destruct names, ff; simpl; apply _. Defined.

(** ** Sample data *)

Module Sample.

Definition item (i : Z) (n : string) : Item :=
  {| index := i; field_id := "000000"; name := n; complement := false;
     Item_describe := "basket includes " +:+ n |}.

Definition rule (id : string) (l r : list Z) : AssociationRule :=
  {| rule_id := id; lhs := l; rhs := r;
     lhs_cover := Pair 0.12345 50; rhs_cover := Pair 0.25 101;
     support := 0.05; confidence := 0.8; leverage := 0.01; lift := 1.5;
     p_value := 0.00001 |}.

Definition explorer (its : list Item) (rs : list AssociationRule) : Association :=
  {| fields := {["000000" := "basket"]};
     inverted_fields := {["basket" := "000000"]};
     items := its; rules := rs |}.

Definition milk := item 0 "milk".
Definition bread := item 1 "bread".
Definition eggs := item 2 "eggs".
Definition milk_and_bread := item 3 "milk & bread".

Definition r1 := rule "000000" [0] [1].
Definition r2 := rule "000001" [2] [0].

(** Two rules, neither the mirror of the other. *)
Definition grocery : Association := explorer [milk; bread; eggs] [r1; r2].

(** No rule was found. *)
Definition no_rules : Association := explorer [milk; bread; eggs] [].

(** An item whose name reads like two joined names. *)
Definition s1 := rule "000000" [0; 1] [2].
Definition s2 := rule "000001" [2] [3].
Definition combos : Association :=
  explorer [milk; bread; eggs; milk_and_bread] [s1; s2].

(** A rule and its mirror, with the same metrics. *)
Definition a := rule "00000a" [1] [2].
Definition b := rule "00000b" [2] [1].
Definition mirrored : Association := explorer [milk; bread; eggs] [a; b].

(** A store that holds the row of [r1]. *)
Definition with_row : store :=
  {| this := grocery; lists := {[1%positive := to_CSV r1]} |}.

End Sample.

(** * Properties *)

(** ** The run-time pieces *)

Lemma bind_Ok {A B} (f : A → result B) (a : A) : (Ok a ≫= f) = f a.
Proof. reflexivity. Qed.

Lemma bind_Ok_inv {A B} (f : A → result B) (m : result A) (b : B) :
  (m ≫= f) = Ok b → ∃ a, m = Ok a ∧ f a = Ok b.
Proof. destruct m as [a|e]; simpl; [eauto | discriminate]. Qed.

Lemma py_getitem_first {A} (x : A) (l : list A) : py_getitem (x :: l) 0 = Ok x.
Proof.
  unfold py_getitem. simpl length.
  destruct (Z.ltb_spec 0 (Z.of_nat (S (length l)))) as [_|?]; [reflexivity | lia].
Qed.

Lemma py_getitem_lookup {A} (l : list A) (n : nat) (a : A) :
  l !! n = Some a → py_getitem l (Z.of_nat n) = Ok a.
Proof.
  intros Hn. pose proof (lookup_lt_Some _ _ _ Hn) as Hlt. unfold py_getitem.
  destruct (Z.ltb_spec (Z.of_nat n) 0) as [?|_]; [lia|].
  destruct (Z.leb_spec 0 (Z.of_nat n)) as [_|?]; [|lia].
  destruct (Z.ltb_spec (Z.of_nat n) (Z.of_nat (length l))) as [_|?]; [|lia].
  simpl. by rewrite Nat2Z.id, Hn.
Qed.

Lemma py_slice_to_length {A} (l : list A) (n : Z) :
  0 ≤ n → (length (py_slice_to l n) ≤ Z.to_nat n)%nat.
Proof.
  intros Hn. unfold py_slice_to.
  destruct (Z.ltb_spec n 0) as [?|_]; [lia|]. rewrite length_take. lia.
Qed.

Lemma Exists_ext {A} (P Q : A → Prop) (l : list A) :
  (∀ x, P x ↔ Q x) → Exists P l ↔ Exists Q l.
Proof.
  intros HPQ. rewrite !Exists_exists.
  split; intros (x & ? & ?); exists x; split; auto; by apply HPQ.
Qed.

Lemma string_app_nil_r (s : string) : s +:+ "" = s.
Proof.
  induction s as [|a s IH]; [reflexivity|].
  change (String a s +:+ "") with (String a (s +:+ "")). by rewrite IH.
Qed.

Lemma string_app_assoc (s t u : string) : (s +:+ t) +:+ u = s +:+ (t +:+ u).
Proof.
  induction s as [|a s IH]; [reflexivity|].
  change (String a ((s +:+ t) +:+ u) = String a (s +:+ (t +:+ u))). by rewrite IH.
Qed.

(** An item of a joined list stands in the joined text. *)
Lemma concat_elem (sep x : string) (l : list string) :
  x ∈ l → ∃ before after, String.concat sep l = before +:+ x +:+ after.
Proof.
  induction l as [|y l IH]; intros Hx; [by apply elem_of_nil in Hx|].
  apply elem_of_cons in Hx as [->|Hx].
  - exists "". destruct l as [|z l]; simpl.
    + exists "". by rewrite string_app_nil_r.
    + by eexists.
  - destruct (IH Hx) as (before & after & Heq).
    destruct l as [|z l]; [by apply elem_of_nil in Hx|].
    exists (y +:+ sep +:+ before), after.
    change (String.concat sep (y :: z :: l))
      with (y +:+ sep +:+ String.concat sep (z :: l)).
    rewrite Heq. by rewrite !string_app_assoc.
Qed.

Section loops.
Context {A : Type} (test : A → result bool).
Context (P : A → Prop) {P_dec : ∀ x, Decision (P x)}.

(** A loop whose test decides [P] without raising builds [filter P]. *)
Lemma filter_loop_Ok (l : list A) :
  (∀ x, x ∈ l → ∃ b : bool, test x = Ok b ∧ (b = true ↔ P x)) →
  filter_loop test l = Ok (filter P l).
Proof.
  induction l as [|x l IH]; intros Hl; [reflexivity|].
  destruct (Hl x) as (b & Hb & HP); [left|].
  simpl. rewrite Hb, IH by (intros; apply Hl; by right). simpl.
  rewrite filter_cons. destruct b; case_decide as Hx; try reflexivity; exfalso.
  - apply Hx, HP; reflexivity.
  - by apply HP in Hx.
Qed.

(** A loop that returned built [filter P]. *)
Lemma filter_loop_inv (l ys : list A) :
  (∀ x (b : bool), x ∈ l → test x = Ok b → (b = true ↔ P x)) →
  filter_loop test l = Ok ys → ys = filter P l.
Proof.
  revert ys; induction l as [|x l IH]; intros ys Hl; simpl.
  - by intros [= <-].
  - intros Hr. apply bind_Ok_inv in Hr as (b & Hb & Hr).
    apply bind_Ok_inv in Hr as (zs & Hzs & [= <-]).
    rewrite (IH zs) by (eauto using list_elem_of_further).
    rewrite filter_cons.
    pose proof (Hl x b (list_elem_of_here _ _) Hb) as HP.
    destruct b; case_decide as Hx; try reflexivity; exfalso.
    + apply Hx, HP; reflexivity.
    + by apply HP in Hx.
Qed.

Lemma filter_loop_Raise (e : exn) (x : A) (l : list A) :
  test x = Raise e → filter_loop test (x :: l) = Raise e.
Proof. intros Hx. simpl. by rewrite Hx. Qed.

(** The loop raises at the first element on which its test does. *)
Lemma filter_loop_first_Raise (e : exn) (l : list A) :
  (∀ x, x ∈ l → P x → test x = Raise e) →
  (∀ x, x ∈ l → ¬ P x → ∃ b, test x = Ok b) →
  Exists P l → filter_loop test l = Raise e.
Proof.
  intros Hraise Hok. induction l as [|x l IH]; intros HE; [by apply Exists_nil in HE|].
  destruct (decide (P x)) as [HP|HP].
  - apply filter_loop_Raise, Hraise; [left|done].
  - destruct (Hok x) as [b Hb]; [left|done|].
    simpl. rewrite Hb, bind_Ok, IH; [done| | |].
    + intros; apply Hraise; [by right|done].
    + intros; apply Hok; [by right|done].
    + by apply Exists_cons in HE as [?|?].
Qed.
End loops.

(** ** Decimal rounding *)

(** [round_div] returns a nearest integer of the quotient. *)
Lemma round_div_nearest (t : PyFloat.tie) (num den : Z) :
  0 < den → 2 * Z.abs (num - PyFloat.round_div t num den * den) ≤ den.
Proof.
  intros Hden. unfold PyFloat.round_div.
  pose proof (Z.div_mod num den ltac:(lia)) as Hdm.
  pose proof (Z.mod_pos_bound num den Hden) as Hmod.
  destruct (Z.compare_spec (2 * (num mod den)) den) as [Heq|Hlt|Hgt];
    [destruct t; [destruct (Z.even (num / den))|]|..]; nia.
Qed.

(** At a tie, [round()] takes the larger magnitude and [%f] the even one. *)
Lemma round_div_tie (t : PyFloat.tie) (num den : Z) :
  0 < den → 2 * (num mod den) = den →
  match t with
  | PyFloat.HalfAway => PyFloat.round_div t num den = num / den + 1
  | PyFloat.HalfEven => Z.even (PyFloat.round_div t num den) = true
  end.
Proof.
  intros Hden Htie. unfold PyFloat.round_div. rewrite Htie, Z.compare_refl.
  destruct t; [|done].
  destruct (Z.even (num / den)) eqn:He; [done|].
  rewrite Z.even_add, He. reflexivity.
Qed.

(** ** [get_items] *)

(** The call with names only, as [get_rules] issues it, never raises. *)
Lemma get_items_by_names (self : Association) (il : list pyobj) :
  get_items self None (Some il) None
  = Ok (filter (λ item, PStr (name item) ∈ il) (items self)).
Proof.
  unfold get_items. simpl. apply filter_loop_Ok. intros item _.
  eexists; split; [reflexivity|]. simpl.
  rewrite andb_true_r, bool_decide_eq_true. done.
Qed.

Lemma filter_function_set_true {A} (filter_function : option (A → bool)) (x : A) :
  filter_function_set filter_function x = true
  ↔ from_option (λ f, f x = true) True filter_function.
Proof. by destruct filter_function. Qed.

Lemma get_items_resolved (self : Association) (field id : string)
    (names : option (list pyobj)) (filter_function : option (Item → bool)) :
  resolve_field self (Some field) = Ok (Some id) →
  get_items self (Some field) names filter_function
  = Ok (filter (item_admitted id names filter_function) (items self)).
Proof.
  intros Hid. unfold get_items. rewrite Hid, bind_Ok.
  apply filter_loop_Ok. intros item _. simpl.
  eexists; split; [reflexivity|]. unfold item_admitted.
  rewrite !andb_true_iff, bool_decide_eq_true, filter_function_set_true.
  destruct names; simpl; [rewrite bool_decide_eq_true|]; tauto.
Qed.

(** X1.  A non-empty field that is a field ID, or else a field name, selects
    the items of that field, in their stored order. *)
Lemma get_items_known_field (self : Association) (field : string)
    (names : option (list pyobj)) (filter_function : option (Item → bool)) :
  field ≠ "" →
  (is_Some (fields self !! field) →
   get_items self (Some field) names filter_function
   = Ok (filter (item_admitted field names filter_function) (items self)))
  ∧ (∀ id, fields self !! field = None → inverted_fields self !! field = Some id →
     get_items self (Some field) names filter_function
     = Ok (filter (item_admitted id names filter_function) (items self))).
Proof.
  intros Hfield. split.
  - intros Hid. apply get_items_resolved. unfold resolve_field. simpl.
    rewrite (bool_decide_eq_false_2 _ Hfield). simpl.
    by rewrite (bool_decide_eq_true_2 _ Hid).
  - intros id Hno Hid. apply get_items_resolved. unfold resolve_field. simpl.
    rewrite (bool_decide_eq_false_2 _ Hfield). simpl.
    rewrite bool_decide_eq_false_2 by (rewrite Hno; by intros [? [=]]).
    by rewrite Hid.
Qed.

Lemma get_items_known_field_witness :
  get_items Sample.grocery (Some "basket") (Some [PStr "eggs"; PStr "milk"]) None
  = Ok [Sample.milk; Sample.eggs].
Proof.
  exact (proj2 (get_items_known_field Sample.grocery "basket"
                  (Some [PStr "eggs"; PStr "milk"]) None ltac:(discriminate))
           "000000" eq_refl eq_refl).
Defined.

(** X2.  A non-empty field that is neither a field ID nor a field name makes
    the call fail with [ValueError]. *)
Lemma get_items_unknown_field (self : Association) (field : string)
    (names : option (list pyobj)) (filter_function : option (Item → bool)) :
  field ≠ "" →
  fields self !! field = None → inverted_fields self !! field = None →
  get_items self (Some field) names filter_function
  = Raise (ValueError ("Failed to find a field name or ID corresponding to "
                       +:+ field +:+ ".")).
Proof.
  intros Hfield Hno Hno'. unfold get_items, resolve_field. simpl.
  rewrite (bool_decide_eq_false_2 _ Hfield). simpl.
  rewrite bool_decide_eq_false_2 by (rewrite Hno; by intros [? [=]]).
  by rewrite Hno'.
Qed.

Lemma get_items_unknown_field_witness :
  get_items Sample.grocery (Some "price") None None
  = Raise (ValueError "Failed to find a field name or ID corresponding to price.").
Proof.
  exact (get_items_unknown_field Sample.grocery "price" None None
           ltac:(discriminate) eq_refl eq_refl).
Defined.

(** The empty string passes [if field:] unresolved and fails the test
    [field is None]: the first item reads the unbound [field_id]. *)
Lemma get_items_empty_field (self : Association)
    (names : option (list pyobj)) (filter_function : option (Item → bool)) :
  get_items self (Some "") names filter_function
  = match items self with [] => Ok [] | _ :: _ => Raise NameError end.
Proof. unfold get_items. simpl. by destruct (items self). Qed.

(** C9, at the failing input: the empty string is neither a field ID nor
    a field name of the explorer, and [get_items] raises [NameError], not
    the [ValueError] that an unknown field raises; beside it, the known
    and the unknown field of the claim. *)
Theorem get_items_empty_field_name_error :
  fields Sample.grocery !! "" = None
  ∧ inverted_fields Sample.grocery !! "" = None
  ∧ get_items Sample.grocery (Some "") None None = Raise NameError
  ∧ get_items Sample.grocery (Some "basket") None None
    = Ok [Sample.milk; Sample.bread; Sample.eggs]
  ∧ get_items Sample.grocery (Some "price") None None
    = Raise (ValueError "Failed to find a field name or ID corresponding to price.").
Proof. repeat split; vm_compute; reflexivity. Qed.

(** ** [get_rules] *)

Lemma at_least_satisfied (minimum : option float) (value : float) :
  at_least minimum value = true ↔ satisfied minimum value.
Proof. by destruct minimum. Qed.

Lemma any_in_Some (its : list (option Z)) (l : list Z) :
  any_in (Some its) l = Ok (bool_decide (Exists (λ i, Some i ∈ its) l)).
Proof.
  induction l as [|i l IH]; [reflexivity|].
  cbn [any_in]. destruct (decide (Some i ∈ its)) as [Hi|Hi].
  - rewrite (bool_decide_eq_true_2 _ Hi). symmetry. f_equal.
    apply bool_decide_eq_true_2. by left.
  - rewrite (bool_decide_eq_false_2 _ Hi), IH. f_equal.
    apply bool_decide_ext. rewrite Exists_cons. tauto.
Qed.

(** With [items] unbound, the two loops end only if they have nothing to
    read. *)
Lemma any_in_None_inv (l : list Z) (b : bool) :
  any_in None l = Ok b → l = [] ∧ b = false.
Proof. destruct l; simpl; [by intros [= <-] | discriminate]. Qed.

Lemma any_in_both (its : list (option Z)) (l r : list Z) :
  (any_in (Some its) l ≫= λ found : bool, if found then Ok true else any_in (Some its) r)
  = Ok (bool_decide (Exists (λ i, Some i ∈ its) (l ++ r))).
Proof.
  rewrite !any_in_Some. simpl.
  destruct (decide (Exists (λ i, Some i ∈ its) l)) as [Hl|Hl].
  - rewrite (bool_decide_eq_true_2 _ Hl). symmetry. f_equal.
    apply bool_decide_eq_true_2, Exists_app. by left.
  - rewrite (bool_decide_eq_false_2 _ Hl). f_equal.
    apply bool_decide_ext. rewrite Exists_app. tauto.
Qed.

Lemma map_loop_index_attr (il : list pyobj) (its : list (option Z)) :
  map_loop index_attr il = Ok its →
  ∀ i, Some i ∈ its ↔
       i ∈ omap (λ o, match o with PItem item => Some (index item) | _ => None end) il.
Proof.
  revert its; induction il as [|o il IH]; intros its; simpl.
  - intros [= <-] i. by rewrite !elem_of_nil.
  - intros Hr. apply bind_Ok_inv in Hr as (y & Hy & Hr).
    apply bind_Ok_inv in Hr as (ys & Hys & [= <-]).
    intros i. rewrite elem_of_cons, (IH ys Hys).
    destruct o as [item|s|n]; simpl in Hy; [| |discriminate]; injection Hy as <-.
    + rewrite elem_of_cons. split; [intros [[= ->]|?]|intros [->|?]]; auto.
    + split; [intros [?|?]|]; [discriminate|done|by right].
Qed.

Lemma map_loop_index_attr_Ok (il : list pyobj) :
  Forall (λ o, match o with PInt _ => False | _ => True end) il →
  ∃ its, map_loop index_attr il = Ok its.
Proof.
  induction 1 as [|o il Ho _ [its IH]]; simpl; [eauto|].
  destruct o; simpl; [| |done]; rewrite IH; simpl; eauto.
Qed.

(** What [item_list_set] returns, when it returns, is whether the rule is
    related to the list. *)
Lemma item_list_set_inv (self : Association) (il : list pyobj)
    (rule : AssociationRule) (b : bool) :
  item_list_set self (Some il) rule = Ok b → (b = true ↔ related self il rule).
Proof.
  unfold item_list_set, related. intros Hr.
  apply bind_Ok_inv in Hr as (first & Hfirst & Hr).
  apply bind_Ok_inv in Hr as (its & Hits & Hr).
  destruct il as [|o il]; [discriminate|].
  rewrite py_getitem_first in Hfirst. injection Hfirst as <-.
  destruct o as [item|s|n].
  - apply bind_Ok_inv in Hits as (ys & Hys & [= <-]).
    rewrite any_in_both in Hr. injection Hr as <-.
    rewrite bool_decide_eq_true. apply Exists_ext; intros i.
    by rewrite (map_loop_index_attr _ _ Hys i).
  - rewrite get_items_by_names in Hits. simpl in Hits. injection Hits as <-.
    rewrite any_in_both in Hr. injection Hr as <-.
    rewrite bool_decide_eq_true. apply Exists_ext; intros i.
    unfold resolved_indices. rewrite !list_elem_of_fmap.
    split; intros (item & Hi & ?); exists item.
    + by injection Hi as ->.
    + by rewrite Hi.
  - simpl in Hits. injection Hits as <-.
    destruct (any_in None (lhs rule)) as [found|] eqn:Hl; [|discriminate].
    apply any_in_None_inv in Hl as [Hl ->]. simpl in Hr.
    apply any_in_None_inv in Hr as [Hr ->].
    rewrite Hl, Hr. simpl. split; [discriminate | by intros ?%Exists_nil].
Qed.

Lemma item_list_set_Ok (self : Association) (il : list pyobj) (rule : AssociationRule) :
  resolvable il → ∃ b, item_list_set self (Some il) rule = Ok b.
Proof.
  intros Hil. destruct il as [|[item|s|n] il]; try done; unfold item_list_set;
    rewrite py_getitem_first, bind_Ok; cbv beta iota.
  - destruct (map_loop_index_attr_Ok _ Hil) as [its ->].
    rewrite !bind_Ok, any_in_both. eauto.
  - rewrite get_items_by_names, !bind_Ok, any_in_both. eauto.
Qed.

(** A first element that is neither an item nor a string leaves [items]
    unbound: the first index read raises. *)
Lemma item_list_set_unbound (self : Association) (n : Z) (il : list pyobj)
    (rule : AssociationRule) :
  item_list_set self (Some (PInt n :: il)) rule
  = if decide (lhs rule ≠ [] ∨ rhs rule ≠ []) then Raise UnboundLocalError else Ok false.
Proof.
  unfold item_list_set. rewrite py_getitem_first, !bind_Ok.
  destruct (decide (lhs rule ≠ [] ∨ rhs rule ≠ [])) as [H|H].
  - destruct (lhs rule) as [|i l]; [|reflexivity].
    destruct (rhs rule) as [|j r]; [|reflexivity].
    by destruct H.
  - destruct (lhs rule) as [|i l]; [|destruct H; by left].
    destruct (rhs rule) as [|j r]; [reflexivity|destruct H; by right].
Qed.

Lemma item_list_set_related (self : Association) (il : option (list pyobj))
    (rule : AssociationRule) (b : bool) :
  item_list_set self il rule = Ok b →
  (b = true ↔ from_option (λ l, related self l rule) True il).
Proof.
  destruct il as [l|]; [apply item_list_set_inv|].
  simpl. by intros [= <-].
Qed.

(** Names that no item bears resolve to no index. *)
Lemma names_resolve_to_nothing (self : Association) (s : string)
    (l : list pyobj) (rule : AssociationRule) :
  (∀ item, item ∈ items self → PStr (name item) ∉ PStr s :: l) →
  ¬ related self (PStr s :: l) rule.
Proof.
  intros Hnone (i & _ & Hi)%Exists_exists. unfold resolved_indices in Hi.
  apply list_elem_of_fmap in Hi as (item & _ & (Hin & Hitem)%list_elem_of_filter).
  by apply (Hnone item).
Qed.

Section get_rules_facts.
Context (self : Association).
Context (min_leverage min_strength min_support min_p_value : option float).
Context (item_list : option (list pyobj)).
Context (filter_function : option (AssociationRule → bool)).

(** The test of the loop decides [admitted]. *)
Lemma get_rules_test (rule : AssociationRule) (listed : bool) :
  item_list_set self item_list rule = Ok listed →
  at_least min_leverage (leverage rule)
  && at_least min_strength (strength rule)
  && at_least min_support (support rule)
  && at_least min_p_value (p_value rule)
  && listed
  && filter_function_set filter_function rule = true
  ↔ admitted self min_leverage min_strength min_support min_p_value
      item_list filter_function rule.
Proof.
  intros Hlisted. unfold admitted.
  rewrite !andb_true_iff, !at_least_satisfied, filter_function_set_true.
  rewrite (item_list_set_related _ _ _ _ Hlisted). tauto.
Qed.

(** Whatever the call returns is the admitted rules, in stored order. *)
Lemma get_rules_result (rs : list AssociationRule) :
  get_rules self min_leverage min_strength min_support min_p_value
    item_list filter_function = Ok rs →
  rs = filter (admitted self min_leverage min_strength min_support min_p_value
                 item_list filter_function) (rules self).
Proof.
  apply filter_loop_inv. intros rule b _ Hb.
  apply bind_Ok_inv in Hb as (listed & Hlisted & [= <-]).
  by apply get_rules_test.
Qed.

(** The call returns when the item list, if any, is resolvable. *)
Lemma get_rules_returns :
  from_option resolvable True item_list →
  get_rules self min_leverage min_strength min_support min_p_value
    item_list filter_function
  = Ok (filter (admitted self min_leverage min_strength min_support min_p_value
                  item_list filter_function) (rules self)).
Proof.
  intros Hil. apply filter_loop_Ok. intros rule _.
  assert (∃ listed, item_list_set self item_list rule = Ok listed) as [listed Hlisted].
  { destruct item_list as [il|]; [by apply item_list_set_Ok | by exists true]. }
  rewrite Hlisted, bind_Ok. eexists; split; [reflexivity|].
  by apply get_rules_test.
Qed.
End get_rules_facts.

(** C1. A call of [get_rules] without an item list, or with a resolvable
    one, returns; and whatever a call of [get_rules] returns is the
    stored rule list filtered, in its order, by [admitted]: a sublist of
    the stored rules that holds a rule iff every lower bound given is
    satisfied by the rule's metric, the rule has an index of its [lhs] or
    [rhs] in the index set the item list (if given) resolves to, and the
    predicate (if given) is true of the rule. *)
Theorem get_rules_admitted (self : Association)
    (min_leverage min_strength min_support min_p_value : option float)
    (item_list : option (list pyobj))
    (filter_function : option (AssociationRule → bool)) :
  (from_option resolvable True item_list →
   ∃ rs, get_rules self min_leverage min_strength min_support min_p_value
           item_list filter_function = Ok rs)
  ∧ (∀ rs,
       get_rules self min_leverage min_strength min_support min_p_value
         item_list filter_function = Ok rs →
       rs = filter (admitted self min_leverage min_strength min_support min_p_value
                      item_list filter_function) (rules self)
       ∧ rs `sublist_of` rules self
       ∧ ∀ rule, rule ∈ rs ↔
           rule ∈ rules self ∧
           admitted self min_leverage min_strength min_support min_p_value
             item_list filter_function rule).
Proof.
  split.
  - intros Hil. eexists. by apply get_rules_returns.
  - intros rs ->%get_rules_result. split; [done|]. split; [apply sublist_filter|].
    intros rule. rewrite list_elem_of_filter. tauto.
Qed.

Lemma get_rules_admitted_witness :
  ∃ rs,
    get_rules Sample.grocery (Some 0.005%float) None None None
      (Some [PItem Sample.eggs; PItem Sample.bread]) (Some (λ rule, 1 <? length (lhs rule ++ rhs rule))%nat)
    = Ok rs
    ∧ rs = [Sample.r1; Sample.r2]
    ∧ rs `sublist_of` rules Sample.grocery.
Proof.
  pose proof (get_rules_admitted Sample.grocery (Some 0.005%float) None None None
                (Some [PItem Sample.eggs; PItem Sample.bread])
                (Some (λ rule, 1 <? length (lhs rule ++ rhs rule))%nat))
    as [Hreturns Hresult].
  destruct Hreturns as [rs Hrs]; [by repeat constructor|].
  exists rs. split; [exact Hrs|].
  destruct (Hresult rs Hrs) as (Heq & Hsub & _).
  split; [exact Heq | exact Hsub].
Defined.

(** C2, as the code has it.  [get_rules] has no check of the names: with
    a list of names it returns the admitted rules, the names that no item
    bears resolving to nothing; if no name of the list is borne by an
    item, it returns the empty list. *)
Theorem get_rules_ignores_unknown_names (self : Association)
    (min_leverage min_strength min_support min_p_value : option float)
    (s : string) (l : list pyobj)
    (filter_function : option (AssociationRule → bool)) :
  get_rules self min_leverage min_strength min_support min_p_value
    (Some (PStr s :: l)) filter_function
  = Ok (filter (admitted self min_leverage min_strength min_support min_p_value
                  (Some (PStr s :: l)) filter_function) (rules self))
  ∧ ((∀ item, item ∈ items self → PStr (name item) ∉ PStr s :: l) →
     get_rules self min_leverage min_strength min_support min_p_value
       (Some (PStr s :: l)) filter_function = Ok []).
Proof.
  assert (Hcall := get_rules_returns self min_leverage min_strength min_support
    min_p_value (Some (PStr s :: l)) filter_function I).
  split; [exact Hcall|]. intros Hnone. rewrite Hcall. f_equal. clear Hcall.
  induction (rules self) as [|rule rs IH]; [done|].
  rewrite filter_cons, decide_False; [exact IH|].
  intros (_ & _ & _ & _ & Hrel & _). simpl in Hrel.
  by eapply names_resolve_to_nothing.
Qed.

Lemma get_rules_ignores_unknown_names_witness :
  get_rules Sample.grocery None None None None (Some [PStr "beer"; PStr "wine"]) None
  = Ok [].
Proof.
  apply (proj2 (get_rules_ignores_unknown_names Sample.grocery None None None None
                  "beer" [PStr "wine"] None)).
  intros item Hitem Hin.
  repeat (apply elem_of_cons in Hitem as [->|Hitem];
          [repeat (apply elem_of_cons in Hin as [[=]|Hin]); by apply elem_of_nil in Hin|]).
  by apply elem_of_nil in Hitem.
Defined.

(** C2, the claim refuted: no item is named "beer", and the call returns
    the rule related to "eggs" instead of failing. *)
Lemma get_rules_unknown_name_returns :
  Forall (λ item, name item ≠ "beer") (items Sample.grocery)
  ∧ get_rules Sample.grocery None None None None (Some [PStr "eggs"; PStr "beer"]) None
    = Ok [Sample.r2].
Proof. split; [repeat constructor; discriminate | vm_compute; reflexivity]. Qed.

(** C10, as the code has it.  The item list is read once per stored
    rule, so with no rule stored every call returns the empty list; with
    a rule stored, an empty item list raises [IndexError]; and a list
    whose first element is neither an item nor a string raises
    [UnboundLocalError] as soon as a stored rule has an index to look up. *)
Theorem get_rules_item_list_unguarded (self : Association)
    (min_leverage min_strength min_support min_p_value : option float)
    (filter_function : option (AssociationRule → bool)) :
  (rules self = [] → ∀ item_list,
     get_rules self min_leverage min_strength min_support min_p_value
       item_list filter_function = Ok [])
  ∧ (rules self ≠ [] →
     get_rules self min_leverage min_strength min_support min_p_value
       (Some []) filter_function = Raise IndexError)
  ∧ (∀ n il, Exists (λ rule, lhs rule ≠ [] ∨ rhs rule ≠ []) (rules self) →
     get_rules self min_leverage min_strength min_support min_p_value
       (Some (PInt n :: il)) filter_function = Raise UnboundLocalError).
Proof.
  unfold get_rules. split; [|split].
  - by intros ->.
  - destruct (rules self) as [|rule rs]; [done|]. intros _.
    by apply filter_loop_Raise.
  - intros n il.
    apply (filter_loop_first_Raise _ (λ rule, lhs rule ≠ [] ∨ rhs rule ≠ [])).
    + intros rule _ Hrule. rewrite item_list_set_unbound.
      by rewrite decide_True.
    + intros rule _ Hrule. rewrite item_list_set_unbound.
      rewrite decide_False by done. rewrite bind_Ok. eauto.
Qed.

Lemma get_rules_item_list_unguarded_witness :
  get_rules Sample.grocery None None None None (Some []) None = Raise IndexError
  ∧ get_rules Sample.grocery None None None None (Some [PInt 7]) None
    = Raise UnboundLocalError.
Proof.
  pose proof (get_rules_item_list_unguarded Sample.grocery None None None None None)
    as (_ & Hempty & Hother).
  split.
  - apply Hempty. discriminate.
  - apply Hother. left. left. discriminate.
Defined.

(** C10, the claim refuted: with no rule stored, the call with an empty
    item list returns. *)
Lemma get_rules_empty_item_list_returns :
  rules Sample.no_rules = []
  ∧ get_rules Sample.no_rules None None None None (Some []) None = Ok [].
Proof. split; reflexivity. Qed.

(** ** [get_metric_string] *)

(** The string depends on the rule through the six attributes only. *)
Lemma get_metric_string_ext (rule rule' : AssociationRule) (reverse reverse' : bool) :
  (∀ metric, getattr rule metric = getattr rule' metric) →
  get_metric_string rule reverse = get_metric_string rule' reverse'.
Proof.
  intros Hattr. unfold get_metric_string. f_equal.
  apply list_fmap_ext. intros _ metric _. unfold metric_fragment.
  by rewrite (Hattr metric).
Qed.

(** [metric_key] is dead: [reverse] changes neither a value nor a label. *)
Lemma get_metric_string_reverse_ignored (rule : AssociationRule) (reverse : bool) :
  get_metric_string rule reverse = get_metric_string rule false.
Proof. reflexivity. Qed.

(** C5, at the failing input: for a rule whose two coverages differ, the
    string of [reverse=True] is, label for label and value for value, the
    string of [reverse=False]; its coverage fragment bears the antecedent
    label and the antecedent coverage. *)
Theorem get_metric_string_reverse_same_label :
  lhs_cover Sample.r1 = Pair 0.12345 50
  ∧ rhs_cover Sample.r1 = Pair 0.25 101
  ∧ get_metric_string Sample.r1 true = get_metric_string Sample.r1 false
  ∧ get_metric_string Sample.r1 true
    = "Coverage=12.35% (50); Support=0.05; Confidence=80.00%; Leverage=0.01; Lift=1.5; p-value=1e-05".
Proof. repeat split; vm_compute; reflexivity. Qed.

(** C7. In the string of a rule, a metric whose value is a pair
    [[fraction, count]] is rendered as its label, [=], the fraction
    rounded to 4 decimals, times 100, printed with 2 decimals, [%], and
    the count between parentheses; in particular a coverage
    [[0.12345, 50]] opens the string with [Coverage=12.35% (50)]. *)
Theorem get_metric_string_percent (rule : AssociationRule) (reverse : bool) :
  (∀ metric fraction count,
     getattr rule metric = Pair fraction count →
     ∃ before after,
       get_metric_string rule reverse
       = before +:+
         (METRIC_LITERALS metric +:+ "=" +:+
          PyFloat.format_f 2 (PyFloat.round fraction 4 * 100)%float +:+
          "% (" +:+ PyFloat.str_int count +:+ ")") +:+
         after)
  ∧ (lhs_cover rule = Pair 0.12345 50 →
     ∃ after, get_metric_string rule reverse = "Coverage=12.35% (50)" +:+ after).
Proof.
  split.
  - intros metric fraction count Hpair. apply concat_elem.
    apply list_elem_of_fmap. exists metric. split.
    + unfold metric_fragment. by rewrite Hpair.
    + destruct metric; unfold ASSOCIATION_METRICS; set_solver.
  - intros Hpair. unfold get_metric_string, ASSOCIATION_METRICS.
    rewrite fmap_cons. unfold metric_fragment at 1. cbn [getattr]. rewrite Hpair.
    replace (PyFloat.format_f 2 (PyFloat.round 0.12345 4 * 100)%float) with "12.35"
      by (vm_compute; reflexivity).
    eexists. cbn [String.concat fmap list_fmap METRIC_LITERALS PyFloat.str_int].
    change (PyFloat.str_int 50) with "50". cbn [String.append]. reflexivity.
Qed.

Lemma get_metric_string_percent_witness :
  ∃ after, get_metric_string Sample.r1 false = "Coverage=12.35% (50)" +:+ after.
Proof.
  exact (proj2 (get_metric_string_percent Sample.r1 false) eq_refl).
Defined.

(** ** [describe] *)

Lemma describe_cell_indices (self : Association) (l : list Z) (described : list Item) :
  Forall2 (λ i item, py_getitem (items self) i = Ok item) l described →
  describe_cell self (CIdx l) = Ok (joined_descriptions self described).
Proof.
  intros Hl. unfold describe_cell, joined_descriptions.
  assert (map_loop (λ item_index, item ← py_getitem (items self) item_index;
                                  Ok (item_description self item)) l
          = Ok (item_description self <$> described)) as ->; [|done].
  induction Hl as [|i item l described Hi _ IH]; [done|].
  cbn [map_loop]. by rewrite Hi, !bind_Ok, IH.
Qed.

(** The list object of a row whose indices are those of stored items ends
    up with the two texts in place of the two index lists. *)
Lemma describe_list_indices (self : Association) (rid : cell) (l r : list Z)
    (rest : list cell) (antecedent consequent : list Item) :
  Forall2 (λ i item, py_getitem (items self) i = Ok item) l antecedent →
  Forall2 (λ i item, py_getitem (items self) i = Ok item) r consequent →
  describe_list self (rid :: CIdx l :: CIdx r :: rest)
  = (rid :: CStr (joined_descriptions self antecedent)
         :: CStr (joined_descriptions self consequent) :: rest, Ok tt).
Proof.
  intros Hl Hr. unfold describe_list, describe_slot.
  rewrite (py_getitem_lookup _ 1 (CIdx l)), bind_Ok by done.
  rewrite (describe_cell_indices _ _ _ Hl).
  cbn [insert list_insert Z.to_nat Pos.to_nat Pos.iter_op Nat.add].
  rewrite (py_getitem_lookup _ 2 (CIdx r)), bind_Ok by done.
  by rewrite (describe_cell_indices _ _ _ Hr).
Qed.

(** C8, as the code has it.  For a row [[rule_id, lhs, rhs, ...]] whose
    indices are those of stored items, [describe] leaves the explorer
    (its rules and its items) and every other list of the store as they
    were, overwrites the row it was given, the two index lists becoming
    the descriptions of their items joined with [" & "], and returns the
    reference it was given; an item is described by its bare name when
    the explorer has exactly one field and the item is not a complement,
    by its full description otherwise. *)
Theorem describe_in_place (σ : store) (rule_row : ref) (rid : cell)
    (l r : list Z) (rest : list cell) (antecedent consequent : list Item) :
  lists σ !! rule_row = Some (rid :: CIdx l :: CIdx r :: rest) →
  Forall2 (λ i item, py_getitem (items (this σ)) i = Ok item) l antecedent →
  Forall2 (λ i item, py_getitem (items (this σ)) i = Ok item) r consequent →
  ∃ σ',
    describe rule_row σ = (σ', Ok rule_row)
    ∧ this σ' = this σ
    ∧ lists σ' !! rule_row
      = Some (rid :: CStr (String.concat " & " (item_description (this σ) <$> antecedent))
                  :: CStr (String.concat " & " (item_description (this σ) <$> consequent))
                  :: rest)
    ∧ (∀ other, other ≠ rule_row → lists σ' !! other = lists σ !! other)
    ∧ (∀ item, item_description (this σ) item
               = if decide (size (fields (this σ)) = 1%nat ∧ complement item = false)
                 then name item else Item_describe item).
Proof.
  intros Hrow Hl Hr. unfold describe. rewrite Hrow. cbn [default from_option id].
  rewrite (describe_list_indices _ _ _ _ _ _ _ Hl Hr).
  eexists. split; [reflexivity|]. cbn [this lists].
  split; [reflexivity|]. split; [apply lookup_insert_eq|]. split.
  - intros other Hother. by apply lookup_insert_ne.
  - intros item. unfold item_description.
    destruct (decide (size (fields (this σ)) = 1%nat)) as [H1|H1],
      (complement item).
    + rewrite (bool_decide_eq_true_2 _ H1), decide_False by (by intros [_ ?]). done.
    + rewrite (bool_decide_eq_true_2 _ H1), decide_True by done. done.
    + rewrite (bool_decide_eq_false_2 _ H1), decide_False by (by intros [? _]). done.
    + rewrite (bool_decide_eq_false_2 _ H1), decide_False by (by intros [? _]). done.
Qed.

Lemma describe_in_place_witness :
  ∃ σ',
    describe 1%positive Sample.with_row = (σ', Ok 1%positive)
    ∧ this σ' = Sample.grocery
    ∧ lists σ' !! 1%positive
      = Some ([CStr "000000"; CStr "milk"; CStr "bread"]
                ++ drop 3 (to_CSV Sample.r1)).
Proof.
  destruct (describe_in_place Sample.with_row 1%positive (CStr "000000") [0] [1]
              (drop 3 (to_CSV Sample.r1)) [Sample.milk] [Sample.bread]
              eq_refl) as (σ' & Hcall & Hthis & Hrow & _).
  - repeat constructor.
  - repeat constructor.
  - exists σ'. split; [exact Hcall|]. split; [exact Hthis|]. exact Hrow.
Defined.

(** C8, the claim refuted: the reference returned is the argument, and
    the list it refers to has changed. *)
Lemma describe_returns_its_argument :
  ∃ σ',
    describe 1%positive Sample.with_row = (σ', Ok 1%positive)
    ∧ lists Sample.with_row !! 1%positive
      = Some ([CStr "000000"; CIdx [0]; CIdx [1]] ++ drop 3 (to_CSV Sample.r1))
    ∧ lists σ' !! 1%positive
      = Some ([CStr "000000"; CStr "milk"; CStr "bread"] ++ drop 3 (to_CSV Sample.r1)).
Proof. eexists. repeat split; vm_compute; reflexivity. Qed.

(** ** [summarize] *)

(** No key is smaller than itself. *)
Lemma float_ltb_irrefl (x : float) : (x <? x)%float = false.
Proof.
  rewrite ltb_spec. unfold SFltb.
  destruct (Prim2SF x) as [s|s| |s m e]; simpl; [by destruct s ..|done|].
  rewrite Z.compare_refl.
  change (PosDef.Pos.compare_cont Eq m m) with (Pos.compare m m).
  rewrite Pos.compare_refl. by destruct s.
Qed.

Lemma metric_lt_irrefl (v : metric_value) : metric_lt v v = false.
Proof.
  destruct v as [x|f c]; simpl; [apply float_ltb_irrefl|].
  rewrite float_ltb_irrefl, Z.ltb_irrefl. by destruct (f =? f)%float.
Qed.

Lemma insert_desc_length {A} (key : A → metric_value) (x : A) (l : list A) :
  length (insert_desc key x l) = S (length l).
Proof.
  induction l as [|y l IH]; [done|]. simpl.
  destruct (metric_lt (key x) (key y)); simpl; by rewrite ?IH.
Qed.

Lemma sorted_desc_length {A} (key : A → metric_value) (l : list A) :
  length (sorted_desc key l) = length l.
Proof.
  induction l as [|x l IH]; [done|].
  unfold sorted_desc in *. simpl. by rewrite insert_desc_length, IH.
Qed.

Lemma insert_desc_perm {A} (key : A → metric_value) (x : A) (l : list A) :
  insert_desc key x l ≡ₚ x :: l.
Proof.
  induction l as [|y l IH]; [done|]. simpl.
  destruct (metric_lt (key x) (key y)); [|done].
  by rewrite IH, Permutation_swap.
Qed.

Lemma sorted_desc_perm {A} (key : A → metric_value) (l : list A) :
  sorted_desc key l ≡ₚ l.
Proof.
  induction l as [|x l IH]; [done|].
  unfold sorted_desc in *. simpl. by rewrite insert_desc_perm, IH.
Qed.

Lemma top_rules_by_length (rules : list AssociationRule) (limit : Z) (metric : Metric.t) :
  0 ≤ limit → Z.of_nat (length (top_rules_by rules limit metric)) ≤ 2 * limit.
Proof.
  intros Hl. unfold top_rules_by.
  pose proof (py_slice_to_length (sorted_desc (λ x, getattr x metric) rules) (limit * 2)).
  lia.
Qed.

(** One turn of the loop over the candidates. *)
Lemma emit_loop_cons (self : Association) (limit : Z)
    (top_rules todo : list AssociationRule) (rule : AssociationRule)
    (c : candidate) (st : loop_state) :
  render self top_rules rule = Ok c →
  emit_loop self limit top_rules (rule :: todo) st
  = if accepted c st then
      if limit <? counter (emit c st) then Ok (emit c st)
      else emit_loop self limit top_rules todo (emit c st)
    else emit_loop self limit top_rules todo st.
Proof. intros Hc. cbn [emit_loop]. by rewrite Hc. Qed.

Lemma emit_loop_grows (self : Association) (limit : Z)
    (top_rules todo : list AssociationRule) (st st' : loop_state) :
  emit_loop self limit top_rules todo st = Ok st' →
  out_rules st `prefix_of` out_rules st'
  ∧ ref_rules st `prefix_of` ref_rules st'.
Proof.
  revert st; induction todo as [|rule todo IH]; intros st; cbn [emit_loop].
  - by intros [= <-].
  - intros Hr. apply bind_Ok_inv in Hr as (c & _ & Hr).
    assert (Hemit : out_rules st `prefix_of` out_rules (emit c st)
                    ∧ ref_rules st `prefix_of` ref_rules (emit c st)).
    { split; apply prefix_app_r; done. }
    destruct (accepted c st); [|by apply IH].
    destruct (limit <? counter (emit c st)).
    + by injection Hr as <-.
    + apply IH in Hr as [? ?]. destruct Hemit. split; by etrans.
Qed.

Lemma emit_loop_count (self : Association) (limit : Z)
    (top_rules todo : list AssociationRule) (st st' : loop_state) :
  emit_loop self limit top_rules todo st = Ok st' →
  counter st ≤ limit →
  counter st' ≤ limit + 1
  ∧ Z.of_nat (length (out_rules st')) - Z.of_nat (length (out_rules st))
    = counter st' - counter st
  ∧ counter st' - counter st ≤ Z.of_nat (length todo).
Proof.
  revert st; induction todo as [|rule todo IH]; intros st; cbn [emit_loop].
  - intros [= <-] ?. simpl. lia.
  - intros Hr Hst. apply bind_Ok_inv in Hr as (c & _ & Hr).
    destruct (accepted c st).
    + assert (Z.of_nat (length (out_rules (emit c st)))
              = Z.of_nat (length (out_rules st)) + 1) as Hlen.
      { cbn [emit out_rules]. rewrite length_app. simpl. lia. }
      assert (counter (emit c st) = counter st + 1) as Hcnt by done.
      destruct (Z.ltb_spec limit (counter (emit c st))).
      * injection Hr as <-. cbn [length]. lia.
      * apply IH in Hr; [|lia]. cbn [length]. lia.
    + apply IH in Hr; [|lia]. cbn [length]. lia.
Qed.

(** X6.  For a limit that is not negative, a section has at most
    [limit + 1] lines and at most [2 * limit]: none when the limit is 0. *)
Lemma metric_lines_bound (self : Association) (limit : Z)
    (rules : list AssociationRule) (metric : Metric.t) (lines : list string) :
  0 ≤ limit →
  metric_lines self limit rules metric = Ok lines →
  Z.of_nat (length lines) ≤ limit + 1 ∧ Z.of_nat (length lines) ≤ 2 * limit.
Proof.
  intros Hlimit Hr. unfold metric_lines in Hr.
  apply bind_Ok_inv in Hr as (st & Hst & [= <-]).
  apply emit_loop_count in Hst; [|simpl; lia]. simpl in Hst.
  pose proof (top_rules_by_length rules limit metric Hlimit). lia.
Qed.

(** C3, at the failing input: with [limit = 1] and two rules that are not
    mirrors of each other, the section of every metric has two lines. *)
Theorem summarize_emits_one_more_than_limit :
  ∀ metric, ∃ line1 line2,
    metric_lines Sample.grocery 1 (rules Sample.grocery) metric = Ok [line1; line2].
Proof. intros metric. do 2 eexists. destruct metric; vm_compute; reflexivity. Qed.

(** The connector is one of the two. *)
Lemma pair_scan_operator (rule : AssociationRule) (metric_string : string)
    (top_rules : list AssociationRule) :
  (pair_scan rule metric_string top_rules).2 = "->"
  ∨ (pair_scan rule metric_string top_rules).2 = "<->".
Proof.
  unfold pair_scan.
  set (acc := ("Rule " +:+ rule_id rule +:+ ": ", "->")).
  assert (Hacc : acc.2 = "->" ∨ acc.2 = "<->") by (by left).
  clearbody acc. revert acc Hacc.
  induction top_rules as [|item top IH]; intros acc Hacc; [done|].
  cbn [fold_left]. destruct (mirrors rule metric_string item); apply IH; auto.
Qed.

Lemma render_operator (self : Association) (top_rules : list AssociationRule)
    (rule : AssociationRule) (c : candidate) :
  render self top_rules rule = Ok c → operator c = "->" ∨ operator c = "<->".
Proof.
  unfold render. destruct (describe_list self (to_CSV rule)) as [rule_row described].
  intros Hr. apply bind_Ok_inv in Hr as (_ & _ & Hr).
  pose proof (pair_scan_operator rule (get_metric_string rule false) top_rules) as Hop.
  destruct (pair_scan rule (get_metric_string rule false) top_rules) as [label op].
  apply bind_Ok_inv in Hr as (antecedent & _ & Hr).
  apply bind_Ok_inv in Hr as (consequent & _ & [= <-]). exact Hop.
Qed.

Lemma render_described (self : Association) (top_rules : list AssociationRule)
    (rule : AssociationRule) (antecedent consequent : list Item) :
  Forall2 (λ i item, py_getitem (items self) i = Ok item) (lhs rule) antecedent →
  Forall2 (λ i item, py_getitem (items self) i = Ok item) (rhs rule) consequent →
  render self top_rules rule
  = let metric_string := get_metric_string rule false in
    let scan := pair_scan rule metric_string top_rules in
    Ok {| rule_id_string := scan.1;
          operator := scan.2;
          out_rule := joined_descriptions self antecedent +:+ " " +:+ scan.2 +:+ " " +:+
                      joined_descriptions self consequent +:+ " [" +:+ metric_string +:+ "]";
          reverse_rule := joined_descriptions self consequent +:+ " " +:+ scan.2 +:+ " " +:+
                          joined_descriptions self antecedent +:+ " [" +:+ metric_string +:+ "]" |}.
Proof.
  intros Hl Hr. unfold render.
  change (to_CSV rule) with
    (CStr (rule_id rule) :: CIdx (lhs rule) :: CIdx (rhs rule) ::
       (cover_cells (lhs_cover rule) ++ cover_cells (Scalar (support rule))
        ++ [CNum (confidence rule); CNum (leverage rule); CNum (lift rule);
            CNum (p_value rule)] ++ cover_cells (rhs_cover rule))).
  rewrite (describe_list_indices _ _ _ _ _ _ _ Hl Hr). rewrite bind_Ok.
  cbv zeta. destruct (pair_scan _ _ _) as [label op].
  rewrite (py_getitem_lookup _ 1 (CStr (joined_descriptions self antecedent))) by done.
  rewrite bind_Ok.
  rewrite (py_getitem_lookup _ 2 (CStr (joined_descriptions self consequent))) by done.
  by rewrite bind_Ok.
Qed.

(** C4, as the code has it.  When the loop reaches a candidate [c] and
    ends with [st']: the connector of [c] is [->] or [<->]; with [->] its
    line is emitted, whatever was emitted before; with [<->] its line is
    emitted if the text of its reverse-oriented line is not among the
    texts emitted so far, and otherwise the candidate is skipped, the
    loop going on from the same state. *)
Theorem emission_rule (self : Association) (limit : Z)
    (top_rules todo : list AssociationRule) (rule : AssociationRule)
    (c : candidate) (st st' : loop_state) :
  render self top_rules rule = Ok c →
  emit_loop self limit top_rules (rule :: todo) st = Ok st' →
  (operator c = "->" ∨ operator c = "<->")
  ∧ (operator c = "->" →
     (out_rules st ++ [emitted_line c]) `prefix_of` out_rules st')
  ∧ (operator c = "<->" → reverse_rule c ∉ ref_rules st →
     (out_rules st ++ [emitted_line c]) `prefix_of` out_rules st')
  ∧ (operator c = "<->" → reverse_rule c ∈ ref_rules st →
     emit_loop self limit top_rules todo st = Ok st').
Proof.
  intros Hc Hloop. rewrite (emit_loop_cons _ _ _ _ _ _ _ Hc) in Hloop.
  assert (Hemitted : accepted c st = true →
                     (out_rules st ++ [emitted_line c]) `prefix_of` out_rules st').
  { intros Hacc. rewrite Hacc in Hloop.
    destruct (limit <? counter (emit c st)).
    - by injection Hloop as <-.
    - by apply emit_loop_grows in Hloop as [? _]. }
  split; [by eapply render_operator|]. unfold accepted in *. repeat split.
  - intros Hop. apply Hemitted. by rewrite (bool_decide_eq_true_2 _ Hop).
  - intros _ Hnew. apply Hemitted.
    rewrite (bool_decide_eq_false_2 _ Hnew). apply orb_true_r.
  - intros Hop Hold. rewrite bool_decide_eq_false_2 in Hloop by (by rewrite Hop).
    by rewrite (bool_decide_eq_true_2 _ Hold) in Hloop.
Qed.

Lemma emission_rule_witness :
  ∃ c st',
    render Sample.combos [Sample.s1; Sample.s2] Sample.s2 = Ok c
    ∧ emit_loop Sample.combos 10 [Sample.s1; Sample.s2] [Sample.s2]
        {| out_rules := ["one line"]; ref_rules := ["milk & bread -> eggs"];
           counter := 1 |} = Ok st'
    ∧ operator c = "->"
    ∧ (["one line"] ++ [emitted_line c]) `prefix_of` out_rules st'.
Proof.
  assert (∃ c, render Sample.combos [Sample.s1; Sample.s2] Sample.s2 = Ok c
               ∧ operator c = "->") as (c & Hc & Hop)
    by (eexists; split; vm_compute; reflexivity).
  assert (∃ st', emit_loop Sample.combos 10 [Sample.s1; Sample.s2] [Sample.s2]
        {| out_rules := ["one line"]; ref_rules := ["milk & bread -> eggs"];
           counter := 1 |} = Ok st') as (st' & Hloop)
    by (eexists; vm_compute; reflexivity).
  exists c, st'. split; [exact Hc|]. split; [exact Hloop|]. split; [exact Hop|].
  exact (proj1 (proj2 (emission_rule _ _ _ _ _ _ _ _ Hc Hloop)) Hop).
Defined.

(** C4, the claim refuted: the second candidate has the connector [->]
    and the text of its reverse-oriented line is the text emitted for
    the first one; it is emitted all the same. *)
Lemma unidirectional_rule_emitted_after_its_reverse_text :
  ∃ c1 c2,
    render Sample.combos (top_rules_by (rules Sample.combos) 10 Metric.lhs_cover)
      Sample.s1 = Ok c1
    ∧ render Sample.combos (top_rules_by (rules Sample.combos) 10 Metric.lhs_cover)
        Sample.s2 = Ok c2
    ∧ operator c2 = "->"
    ∧ reverse_rule c2 = out_rule c1
    ∧ metric_lines Sample.combos 10 (rules Sample.combos) Metric.lhs_cover
      = Ok [emitted_line c1; emitted_line c2].
Proof. do 2 eexists. repeat split; vm_compute; reflexivity. Qed.

Lemma get_rules_unfiltered (self : Association) :
  get_rules self None None None None None None = Ok (rules self).
Proof.
  unfold get_rules. induction (rules self) as [|rule rs IH]; [done|].
  cbn [filter_loop]. by rewrite IH.
Qed.

Lemma top_rules_by_pair (a b : AssociationRule) (limit : Z) (metric : Metric.t) :
  getattr a metric = getattr b metric → 1 ≤ limit →
  top_rules_by [a; b] limit metric = [a; b].
Proof.
  intros Hkey Hlimit. unfold top_rules_by, sorted_desc. cbn [foldr insert_desc].
  rewrite Hkey, metric_lt_irrefl. unfold py_slice_to.
  destruct (Z.ltb_spec (limit * 2) 0) as [?|_]; [lia|].
  apply take_ge. simpl. lia.
Qed.

(** C6. An explorer that holds exactly the rule [a], from item 1 to
    item 2, and the rule [b], from item 2 to item 1, the six metrics of
    [a] and [b] being the same: for a limit of at least 1 and no filter,
    the section of every metric is the single line that bears both rule
    IDs and the connector [<->], and [summarize] writes the count, then
    for each metric its header and that line, then a newline. *)
Theorem summarize_merges_mirrored_pair (self : Association) (limit : Z)
    (a b : AssociationRule) (item1 item2 : Item) :
  rules self = [a; b] →
  lhs a = [1] → rhs a = [2] → lhs b = [2] → rhs b = [1] →
  (∀ metric, getattr a metric = getattr b metric) →
  items self !! 1%nat = Some item1 → items self !! 2%nat = Some item2 →
  1 ≤ limit →
  let line :=
    INDENT +:+ INDENT +:+
    ("Rules " +:+ rule_id a +:+ ", " +:+ rule_id b +:+ ": ") +:+
    (item_description self item1 +:+ " " +:+ "<->" +:+ " " +:+
     item_description self item2 +:+ " [" +:+ get_metric_string a false +:+ "]") in
  (∀ metric, metric_lines self limit (rules self) metric = Ok [line])
  ∧ (∀ out,
       summarize self out limit None None None None None None
       = (out ++ ["Total number of rules: 2" +:+ nl]
              ++ flat_map (λ metric, [section_header limit metric; line])
                   ASSOCIATION_METRICS
              ++ [nl], Ok tt)).
Proof.
  intros Hrules Hla Hra Hlb Hrb Hattr H1 H2 Hlimit line.
  assert (Hitem1 : py_getitem (items self) 1 = Ok item1)
    by exact (py_getitem_lookup _ 1 _ H1).
  assert (Hitem2 : py_getitem (items self) 2 = Ok item2)
    by exact (py_getitem_lookup _ 2 _ H2).
  assert (Hms : get_metric_string b false = get_metric_string a false)
    by (symmetry; by apply get_metric_string_ext).
  assert (Hscan_a : pair_scan a (get_metric_string a false) [a; b]
                    = ("Rules " +:+ rule_id a +:+ ", " +:+ rule_id b +:+ ": ", "<->")).
  { unfold pair_scan, mirrors. cbn [fold_left]. rewrite Hla, Hra, Hlb, Hrb.
    rewrite (get_metric_string_ext b a true false) by done.
    rewrite (bool_decide_eq_true_2 (get_metric_string a false = get_metric_string a false))
      by done.
    reflexivity. }
  assert (Hscan_b : pair_scan b (get_metric_string a false) [a; b]
                    = ("Rules " +:+ rule_id b +:+ ", " +:+ rule_id a +:+ ": ", "<->")).
  { unfold pair_scan, mirrors. cbn [fold_left]. rewrite Hla, Hra, Hlb, Hrb.
    rewrite (get_metric_string_ext a a true false) by done.
    rewrite (bool_decide_eq_true_2 (get_metric_string a false = get_metric_string a false))
      by done.
    reflexivity. }
  set (text1 := item_description self item1 +:+ " " +:+ "<->" +:+ " " +:+
                item_description self item2 +:+ " [" +:+ get_metric_string a false +:+ "]").
  set (text2 := item_description self item2 +:+ " " +:+ "<->" +:+ " " +:+
                item_description self item1 +:+ " [" +:+ get_metric_string a false +:+ "]").
  assert (Hrender_a : render self [a; b] a
    = Ok {| rule_id_string := "Rules " +:+ rule_id a +:+ ", " +:+ rule_id b +:+ ": ";
            operator := "<->"; out_rule := text1; reverse_rule := text2 |}).
  { rewrite (render_described self [a; b] a [item1] [item2])
      by (rewrite ?Hla, ?Hra; by repeat constructor).
    cbv zeta. by rewrite Hscan_a. }
  assert (Hrender_b : render self [a; b] b
    = Ok {| rule_id_string := "Rules " +:+ rule_id b +:+ ", " +:+ rule_id a +:+ ": ";
            operator := "<->"; out_rule := text2; reverse_rule := text1 |}).
  { rewrite (render_described self [a; b] b [item2] [item1])
      by (rewrite ?Hlb, ?Hrb; by repeat constructor).
    cbv zeta. by rewrite Hms, Hscan_b. }
  assert (Hlines : ∀ metric, metric_lines self limit (rules self) metric = Ok [line]).
  { intros metric. unfold metric_lines. rewrite Hrules.
    rewrite (top_rules_by_pair _ _ _ _ (Hattr metric) Hlimit).
    (* the first rule of the pair is emitted with the combined label *)
    rewrite (emit_loop_cons _ _ _ _ _ _ _ Hrender_a).
    unfold accepted at 1. cbn [operator reverse_rule ref_rules].
    change (bool_decide ("<->" = "->")) with false.
    rewrite bool_decide_eq_false_2 by apply not_elem_of_nil. cbn [orb negb].
    cbn [emit counter out_rules ref_rules out_rule].
    destruct (Z.ltb_spec limit (0 + 1)) as [?|_]; [lia|].
    (* the second one is its mirror: its reverse text was emitted, it is skipped *)
    rewrite (emit_loop_cons _ _ _ _ _ _ _ Hrender_b).
    unfold accepted at 1. cbn [operator reverse_rule ref_rules].
    change (bool_decide ("<->" = "->")) with false.
    rewrite bool_decide_eq_true_2 by (apply list_elem_of_here). cbn [orb negb].
    cbn [emit_loop]. rewrite bind_Ok. cbn [out_rules]. reflexivity. }
  split; [exact Hlines|].
  intros out. unfold summarize. rewrite get_rules_unfiltered.
  rewrite Hrules in Hlines. rewrite Hrules. cbn [length].
  change (PyFloat.str_int (Z.of_nat 2)) with "2".
  unfold ASSOCIATION_METRICS. cbn [summarize_metrics flat_map].
  rewrite !Hlines. cbn [String.concat app]. rewrite <- !app_assoc. reflexivity.
Qed.

Lemma summarize_merges_mirrored_pair_witness :
  Forall (λ metric,
      metric_lines Sample.mirrored 10 (rules Sample.mirrored) metric
      = Ok ["        Rules 00000a, 00000b: bread <-> eggs [Coverage=12.35% (50); Support=0.05; Confidence=80.00%; Leverage=0.01; Lift=1.5; p-value=1e-05]"])
    ASSOCIATION_METRICS.
Proof.
  apply Forall_forall. intros metric _.
  exact (proj1 (summarize_merges_mirrored_pair Sample.mirrored 10 Sample.a Sample.b
                  Sample.bread Sample.eggs eq_refl eq_refl eq_refl eq_refl eq_refl
                  (λ _, eq_refl) eq_refl eq_refl ltac:(lia)) metric).
Defined.

(** ** Order of floats *)

Lemma SFleb_trans (x y z : spec_float) :
  SFleb x y = true → SFleb y z = true → SFleb x z = true.
Proof.
  unfold SFleb.
  destruct x as [sx|sx| |sx mx ex], y as [sy|sy| |sy my ey], z as [sz|sz| |sz mz ez];
    try destruct sx; try destruct sy; try destruct sz; simpl; try done.
  all: change (PosDef.Pos.compare_cont Eq) with Pos.compare.
  all: destruct (Z.compare_spec ex ey), (Z.compare_spec ey ez), (Z.compare_spec ex ez);
    simpl; try done; try lia; subst.
  all: destruct (Pos.compare_spec mx my), (Pos.compare_spec my mz), (Pos.compare_spec mx mz);
    simpl; try done; try lia.
Qed.

Lemma float_leb_trans (x y z : float) :
  (x <=? y)%float = true → (y <=? z)%float = true → (x <=? z)%float = true.
Proof. rewrite !leb_spec. apply SFleb_trans. Qed.

Lemma py_getitem_in_range {A} (l : list A) (i : Z) :
  - Z.of_nat (length l) ≤ i < Z.of_nat (length l) → ∃ a, py_getitem l i = Ok a.
Proof.
  intros Hi. unfold py_getitem.
  set (j := if i <? 0 then i + Z.of_nat (length l) else i).
  assert (0 ≤ j < Z.of_nat (length l)) as Hj.
  { unfold j. destruct (Z.ltb_spec i 0); lia. }
  destruct (Z.leb_spec 0 j); [|lia]. destruct (Z.ltb_spec j (Z.of_nat (length l))); [|lia].
  simpl. destruct (lookup_lt_is_Some_2 l (Z.to_nat j)) as [a Ha]; [lia|].
  rewrite Ha. eauto.
Qed.

Lemma py_getitem_out_of_range {A} (l : list A) (i : Z) :
  ¬ (- Z.of_nat (length l) ≤ i < Z.of_nat (length l)) → py_getitem l i = Raise IndexError.
Proof.
  intros Hi. unfold py_getitem.
  set (j := if i <? 0 then i + Z.of_nat (length l) else i).
  assert (¬ (0 ≤ j < Z.of_nat (length l))) as Hj.
  { unfold j. destruct (Z.ltb_spec i 0); lia. }
  destruct (Z.leb_spec 0 j); [|done].
  destruct (Z.ltb_spec j (Z.of_nat (length l))); [lia|done].
Qed.

Lemma items_at_in_range (self : Association) (l : list Z) :
  Forall (in_range self) l →
  Forall2 (λ i item, py_getitem (items self) i = Ok item) l (items_at self l).
Proof.
  induction 1 as [|i l Hi _ IH]; [constructor|].
  destruct (py_getitem_in_range (items self) i Hi) as [item Hitem].
  unfold items_at. cbn [omap list_omap]. rewrite Hitem. by constructor.
Qed.

Lemma describe_list_in_range (self : Association) (rule : AssociationRule) :
  Forall (in_range self) (lhs rule ++ rhs rule) →
  describe_list self (to_CSV rule) = (described_row self rule, Ok tt).
Proof.
  intros [Hl Hr]%Forall_app.
  exact (describe_list_indices self _ _ _ _ _ _
           (items_at_in_range self _ Hl) (items_at_in_range self _ Hr)).
Qed.

(** ** Further properties: [get_items] and [get_rules] *)

(** X3.  Without a field, [get_items] does not fail: it returns the stored
    items that pass the name and predicate tests, in stored order, and
    all of them when no test is given. *)
Theorem get_items_no_field (self : Association) (names : option (list pyobj))
    (filter_function : option (Item → bool)) :
  ∃ selected,
    get_items self None names filter_function = Ok selected
    ∧ selected `sublist_of` items self
    ∧ (∀ item, item ∈ selected ↔
         item ∈ items self
         ∧ from_option (λ l, PStr (name item) ∈ l) True names
         ∧ from_option (λ f, f item = true) True filter_function)
    ∧ get_items self None None None = Ok (items self).
Proof.
  exists (filter (item_selected names filter_function) (items self)).
  split; [|split; [apply sublist_filter|split]].
  - unfold get_items. simpl. apply filter_loop_Ok. intros item _.
    eexists; split; [reflexivity|]. simpl. unfold item_selected.
    rewrite andb_true_iff, filter_function_set_true.
    destruct names; simpl; [rewrite bool_decide_eq_true|]; tauto.
  - intros item. rewrite list_elem_of_filter. unfold item_selected. tauto.
  - unfold get_items. simpl. induction (items self) as [|item l IH]; [done|].
    cbn [filter_loop]. by rewrite IH.
Qed.

Lemma satisfied_tighter (loose tight : option float) (value : float) :
  tighter loose tight → satisfied tight value → satisfied loose value.
Proof.
  destruct loose as [m1|], tight as [m2|]; simpl; try done.
  apply float_leb_trans.
Qed.

Lemma filter_sublist_impl {A} (P Q : A → Prop) `{!∀ x, Decision (P x)}
    `{!∀ x, Decision (Q x)} (l : list A) :
  (∀ x, P x → Q x) → filter P l `sublist_of` filter Q l.
Proof.
  intros HPQ. induction l as [|x l IH]; [done|].
  rewrite !filter_cons. destruct (decide (P x)) as [HP|HP].
  - rewrite decide_True by auto. by constructor.
  - destruct (decide (Q x)); [by constructor|done].
Qed.

(** X5.  Raising lower bounds, or adding some, removes rules and adds none. *)
Theorem get_rules_tighter (self : Association)
    (leverage1 strength1 support1 p_value1 : option float)
    (leverage2 strength2 support2 p_value2 : option float)
    (item_list : option (list pyobj))
    (filter_function : option (AssociationRule → bool))
    (rs1 rs2 : list AssociationRule) :
  tighter leverage1 leverage2 → tighter strength1 strength2 →
  tighter support1 support2 → tighter p_value1 p_value2 →
  get_rules self leverage1 strength1 support1 p_value1 item_list filter_function = Ok rs1 →
  get_rules self leverage2 strength2 support2 p_value2 item_list filter_function = Ok rs2 →
  rs2 `sublist_of` rs1 ∧ (length rs2 ≤ length rs1)%nat.
Proof.
  intros Hl Hs Hsu Hp ->%get_rules_result ->%get_rules_result.
  assert (Hsub : filter (admitted self leverage2 strength2 support2 p_value2
                           item_list filter_function) (rules self)
                 `sublist_of`
                 filter (admitted self leverage1 strength1 support1 p_value1
                           item_list filter_function) (rules self)).
  { apply filter_sublist_impl. intros rule (? & ? & ? & ? & ? & ?).
    repeat split; eauto using satisfied_tighter. }
  split; [exact Hsub | by apply sublist_length].
Qed.

Lemma get_rules_tighter_witness :
  ∃ rs1 rs2,
    get_rules Sample.grocery None None (Some 0.01%float) None None None = Ok rs1
    ∧ get_rules Sample.grocery (Some 0.005%float) None (Some 0.06%float) None None None
      = Ok rs2
    ∧ rs2 `sublist_of` rs1 ∧ (length rs2 ≤ length rs1)%nat.
Proof.
  assert (∃ rs1, get_rules Sample.grocery None None (Some 0.01%float) None None None
                 = Ok rs1) as [rs1 H1] by (eexists; vm_compute; reflexivity).
  assert (∃ rs2, get_rules Sample.grocery (Some 0.005%float) None (Some 0.06%float)
                   None None None = Ok rs2) as [rs2 H2]
    by (eexists; vm_compute; reflexivity).
  exists rs1, rs2. split; [exact H1|]. split; [exact H2|].
  apply (get_rules_tighter Sample.grocery None None (Some 0.01%float) None
           (Some 0.005%float) None (Some 0.06%float) None None None rs1 rs2);
    [exact I | exact I | vm_compute; reflexivity | exact I | exact H1 | exact H2].
Defined.

(** ** Further properties: [describe] *)
Lemma describe_cell_out_of_range (self : Association) (l : list Z) :
  Exists (λ i, ¬ in_range self i) l → describe_cell self (CIdx l) = Raise IndexError.
Proof.
  intros Hl. unfold describe_cell.
  assert (map_loop (λ item_index, item ← py_getitem (items self) item_index;
                                  Ok (item_description self item)) l
          = Raise IndexError) as ->; [|done].
  induction l as [|i l IH]; [by apply Exists_nil in Hl|].
  cbn [map_loop]. destruct (decide (in_range self i)) as [Hi|Hi].
  - destruct (py_getitem_in_range (items self) i Hi) as [item ->].
    rewrite !bind_Ok, IH; [done|]. by apply Exists_cons in Hl as [?|?].
  - by rewrite (py_getitem_out_of_range _ _ Hi).
Qed.

Lemma store_insert_same (σ : store) (rule_row : ref) (row : list cell) :
  lists σ !! rule_row = Some row →
  {| this := this σ; lists := <[rule_row := row]> (lists σ) |} = σ.
Proof. intros Hrow. destruct σ as [self ls]. simpl in *. by rewrite insert_id. Qed.

(** X12.  An index out of range stops [describe] with [IndexError]: in the
    antecedent, the row is left as it was; in the consequent, the row is
    left with its antecedent already replaced. *)
Theorem describe_index_error (σ : store) (rule_row : ref) (rid : cell)
    (l r : list Z) (rest : list cell) :
  lists σ !! rule_row = Some (rid :: CIdx l :: CIdx r :: rest) →
  (Exists (λ i, ¬ in_range (this σ) i) l →
   describe rule_row σ = (σ, Raise IndexError))
  ∧ (Forall (in_range (this σ)) l → Exists (λ i, ¬ in_range (this σ) i) r →
     describe rule_row σ
     = ({| this := this σ;
           lists := <[rule_row :=
                        rid :: CStr (joined_descriptions (this σ) (items_at (this σ) l))
                            :: CIdx r :: rest]> (lists σ) |},
        Raise IndexError)).
Proof.
  intros Hrow. split.
  - intros Hl. unfold describe. rewrite Hrow. cbn [default from_option id].
    unfold describe_list, describe_slot.
    rewrite (py_getitem_lookup _ 1 (CIdx l)), bind_Ok by done.
    rewrite (describe_cell_out_of_range _ _ Hl). cbn [mbind result_bind].
    by rewrite (store_insert_same _ _ _ Hrow).
  - intros Hl Hr. unfold describe. rewrite Hrow. cbn [default from_option id].
    unfold describe_list, describe_slot.
    rewrite (py_getitem_lookup _ 1 (CIdx l)), bind_Ok by done.
    rewrite (describe_cell_indices _ _ _ (items_at_in_range _ _ Hl)).
    cbn [insert list_insert Z.to_nat Pos.to_nat Pos.iter_op Nat.add].
    rewrite (py_getitem_lookup _ 2 (CIdx r)), bind_Ok by done.
    by rewrite (describe_cell_out_of_range _ _ Hr).
Qed.

Lemma describe_index_error_witness :
  describe 1%positive
    {| this := Sample.grocery;
       lists := {[1%positive := [CStr "000009"; CIdx [0; 1]; CIdx [3]; CNone]]} |}
  = ({| this := Sample.grocery;
        lists := {[1%positive := [CStr "000009"; CStr "milk & bread"; CIdx [3]; CNone]]} |},
     Raise IndexError).
Proof.
  refine (eq_trans
    (proj2 (describe_index_error
       {| this := Sample.grocery;
          lists := {[1%positive := [CStr "000009"; CIdx [0; 1]; CIdx [3]; CNone]]} |}
       1%positive (CStr "000009") [0; 1] [3] [CNone] eq_refl) _ _) _).
  - repeat constructor; vm_compute; intros; discriminate.
  - left. unfold in_range. simpl. lia.
  - vm_compute. reflexivity.
Defined.

Lemma describe_cell_text (self : Association) (s : string) :
  describe_cell self (CStr s) = if decide (s = "") then Ok "" else Raise TypeError.
Proof. by destruct s. Qed.

(** X13.  A described row cannot be described again: the texts are iterated
    character by character, and a character is no list index. *)
Theorem describe_twice (σ : store) (rule_row : ref) (rid : cell)
    (l r : list Z) (rest : list cell) :
  lists σ !! rule_row = Some (rid :: CIdx l :: CIdx r :: rest) →
  Forall (in_range (this σ)) (l ++ r) →
  ∃ σ',
    describe rule_row σ = (σ', Ok rule_row)
    ∧ describe rule_row σ'
      = (σ', if decide (joined_descriptions (this σ) (items_at (this σ) l) = ""
                        ∧ joined_descriptions (this σ) (items_at (this σ) r) = "")
             then Ok rule_row else Raise TypeError).
Proof.
  intros Hrow [Hl Hr]%Forall_app.
  set (tl := joined_descriptions (this σ) (items_at (this σ) l)).
  set (tr := joined_descriptions (this σ) (items_at (this σ) r)).
  exists {| this := this σ;
            lists := <[rule_row := rid :: CStr tl :: CStr tr :: rest]> (lists σ) |}.
  split.
  - unfold describe. rewrite Hrow. cbn [default from_option id].
    by rewrite (describe_list_indices _ _ _ _ _ _ _
                  (items_at_in_range _ _ Hl) (items_at_in_range _ _ Hr)).
  - unfold describe. cbn [this lists]. rewrite lookup_insert_eq.
    cbn [default from_option id].
    unfold describe_list, describe_slot.
    rewrite (py_getitem_lookup _ 1 (CStr tl)), bind_Ok by done.
    rewrite describe_cell_text.
    destruct (decide (tl = "")) as [Hl'|Hl'].
    + rewrite Hl'.
      cbn [insert list_insert Z.to_nat Pos.to_nat Pos.iter_op Nat.add].
      rewrite (py_getitem_lookup _ 2 (CStr tr)), bind_Ok by done.
      rewrite describe_cell_text.
      destruct (decide (tr = "")) as [Hr'|Hr'].
      * rewrite Hr', decide_True by done.
        cbn [insert list_insert Z.to_nat Pos.to_nat Pos.iter_op Nat.add].
        by rewrite insert_insert_eq.
      * rewrite decide_False by (by intros [_ ?]).
        by rewrite insert_insert_eq.
    + rewrite decide_False by (by intros [? _]).
      by rewrite insert_insert_eq.
Qed.

Lemma describe_twice_witness :
  ∃ σ',
    describe 1%positive Sample.with_row = (σ', Ok 1%positive)
    ∧ describe 1%positive σ' = (σ', Raise TypeError).
Proof.
  destruct (describe_twice Sample.with_row 1%positive (CStr "000000") [0] [1]
              (drop 3 (to_CSV Sample.r1)) eq_refl) as (σ' & H1 & H2).
  - repeat constructor; vm_compute; intros; discriminate.
  - exists σ'. split; [exact H1 | exact H2].
Defined.

(** ** Further properties: [summarize] *)
Lemma render_in_range (self : Association) (top_rules : list AssociationRule)
    (rule : AssociationRule) :
  Forall (in_range self) (lhs rule ++ rhs rule) →
  ∃ c, render self top_rules rule = Ok c.
Proof.
  intros [Hl Hr]%Forall_app. eexists.
  apply (render_described self top_rules rule _ _
           (items_at_in_range self _ Hl) (items_at_in_range self _ Hr)).
Qed.

Lemma emit_loop_Ok (self : Association) (limit : Z)
    (top_rules todo : list AssociationRule) (st : loop_state) :
  Forall (λ rule, Forall (in_range self) (lhs rule ++ rhs rule)) todo →
  ∃ st', emit_loop self limit top_rules todo st = Ok st'.
Proof.
  intros Htodo. revert st. induction Htodo as [|rule todo Hrule _ IH]; intros st.
  - by eexists.
  - destruct (render_in_range self top_rules rule Hrule) as [c Hc].
    rewrite (emit_loop_cons _ _ _ _ _ _ _ Hc).
    destruct (accepted c st); [|apply IH].
    destruct (limit <? counter (emit c st)); [by eexists | apply IH].
Qed.

Lemma top_rules_by_subseteq (rules : list AssociationRule) (limit : Z)
    (metric : Metric.t) :
  top_rules_by rules limit metric ⊆ rules.
Proof.
  unfold top_rules_by, py_slice_to. intros rule Hrule.
  rewrite <- (sorted_desc_perm (λ x, getattr x metric) rules).
  destruct (limit * 2 <? 0); by eapply subseteq_take.
Qed.

Lemma metric_lines_Ok (self : Association) (limit : Z)
    (rules : list AssociationRule) (metric : Metric.t) :
  Forall (λ rule, Forall (in_range self) (lhs rule ++ rhs rule)) rules →
  ∃ lines, metric_lines self limit rules metric = Ok lines.
Proof.
  intros Hrules. unfold metric_lines.
  destruct (emit_loop_Ok self limit (top_rules_by rules limit metric)
              (top_rules_by rules limit metric)
              {| out_rules := []; ref_rules := []; counter := 0 |}) as [st' Hst'].
  - apply Forall_forall. intros rule Hrule%top_rules_by_subseteq.
    by eapply Forall_forall in Hrules.
  - rewrite Hst', bind_Ok. eauto.
Qed.

Lemma summarize_metrics_Ok (self : Association) (limit : Z)
    (rules : list AssociationRule) (metrics : list Metric.t) (out : list string) :
  Forall (λ rule, Forall (in_range self) (lhs rule ++ rhs rule)) rules →
  ∃ written,
    summarize_metrics self limit rules metrics out = (out ++ written, Ok tt)
    ∧ length written = (2 * length metrics)%nat.
Proof.
  intros Hrules. revert out. induction metrics as [|metric metrics IH]; intros out.
  - exists []. by rewrite app_nil_r.
  - cbn [summarize_metrics].
    destruct (metric_lines_Ok self limit rules metric Hrules) as [lines ->].
    destruct (IH ((out ++ [section_header limit metric]) ++ [String.concat nl lines]))
      as (written & -> & Hlen).
    exists (section_header limit metric :: String.concat nl lines :: written).
    split; [by rewrite <- !app_assoc|]. simpl. lia.
Qed.

(** X10.  On an explorer whose rules refer to stored items, and with an item
    list that resolves, [summarize] does not fail. *)
Theorem summarize_returns (self : Association) (out : list string) (limit : Z)
    (min_leverage min_strength min_support min_p_value : option float)
    (item_list : option (list pyobj))
    (filter_function : option (AssociationRule → bool)) :
  indices_in_range self →
  from_option resolvable True item_list →
  ∃ rs written,
    get_rules self min_leverage min_strength min_support min_p_value
      item_list filter_function = Ok rs
    ∧ summarize self out limit min_leverage min_strength min_support min_p_value
        item_list filter_function
      = (out ++ ["Total number of rules: " +:+
                 PyFloat.str_int (Z.of_nat (length rs)) +:+ nl]
             ++ written ++ [nl], Ok tt)
    ∧ length written = 12%nat.
Proof.
  intros Hrange Hil.
  pose proof (get_rules_returns self min_leverage min_strength min_support
                min_p_value item_list filter_function Hil) as Hrs.
  eexists. unfold summarize. rewrite Hrs.
  edestruct (summarize_metrics_Ok self limit) as (written & -> & Hlen).
  { apply Forall_forall. intros rule (_ & Hrule)%list_elem_of_filter.
    by eapply Forall_forall in Hrange. }
  exists written. split; [reflexivity|]. split; [by rewrite <- !app_assoc | exact Hlen].
Qed.

Lemma summarize_returns_witness :
  ∃ rs written,
    get_rules Sample.grocery None None None None (Some [PStr "eggs"]) None = Ok rs
    ∧ summarize Sample.grocery [] 3 None None None None (Some [PStr "eggs"]) None
      = ([] ++ ["Total number of rules: " +:+
                PyFloat.str_int (Z.of_nat (length rs)) +:+ nl]
            ++ written ++ [nl], Ok tt)
    ∧ length written = 12%nat.
Proof.
  apply (summarize_returns Sample.grocery [] 3 None None None None
           (Some [PStr "eggs"]) None).
  - repeat constructor; vm_compute; intros; discriminate.
  - exact I.
Defined.

Lemma describe_list_out_of_range (self : Association) (rule : AssociationRule) :
  Exists (λ i, ¬ in_range self i) (lhs rule ++ rhs rule) →
  (describe_list self (to_CSV rule)).2 = Raise IndexError.
Proof.
  intros Hbad. unfold describe_list, describe_slot.
  change (to_CSV rule) with
    (CStr (rule_id rule) :: CIdx (lhs rule) :: CIdx (rhs rule) :: drop 3 (to_CSV rule)).
  rewrite (py_getitem_lookup _ 1 (CIdx (lhs rule))), bind_Ok by done.
  destruct (decide (Forall (in_range self) (lhs rule))) as [Hl|Hl].
  - rewrite (describe_cell_indices _ _ _ (items_at_in_range _ _ Hl)).
    cbn [insert list_insert Z.to_nat Pos.to_nat Pos.iter_op Nat.add].
    rewrite (py_getitem_lookup _ 2 (CIdx (rhs rule))), bind_Ok by done.
    rewrite describe_cell_out_of_range; [done|].
    apply Exists_app in Hbad as [Hbad|Hbad]; [|done].
    exfalso. apply Exists_exists in Hbad as (i & Hi & Hbad).
    by eapply Forall_forall in Hl.
  - apply not_Forall_Exists in Hl; [|apply _].
    by rewrite (describe_cell_out_of_range _ _ Hl).
Qed.

Lemma render_out_of_range (self : Association) (top_rules : list AssociationRule)
    (rule : AssociationRule) :
  Exists (λ i, ¬ in_range self i) (lhs rule ++ rhs rule) →
  render self top_rules rule = Raise IndexError.
Proof.
  intros Hbad%describe_list_out_of_range. unfold render.
  destruct (describe_list self (to_CSV rule)) as [row r]. simpl in Hbad. by rewrite Hbad.
Qed.

(** X11.  [summarize] writes nothing when [get_rules] fails; when the rules it
    returns refer to items that are not stored, it fails with
    [IndexError] after the count and the first header were written. *)
Theorem summarize_failures (self : Association) (out : list string) (limit : Z)
    (min_leverage min_strength min_support min_p_value : option float)
    (item_list : option (list pyobj))
    (filter_function : option (AssociationRule → bool)) :
  (∀ e,
     get_rules self min_leverage min_strength min_support min_p_value
       item_list filter_function = Raise e →
     summarize self out limit min_leverage min_strength min_support min_p_value
       item_list filter_function = (out, Raise e))
  ∧ (∀ rs,
       get_rules self min_leverage min_strength min_support min_p_value
         item_list filter_function = Ok rs →
       rs ≠ [] → 1 ≤ limit →
       Forall (λ rule, Exists (λ i, ¬ in_range self i) (lhs rule ++ rhs rule)) rs →
       summarize self out limit min_leverage min_strength min_support min_p_value
         item_list filter_function
       = (out ++ ["Total number of rules: " +:+
                  PyFloat.str_int (Z.of_nat (length rs)) +:+ nl]
              ++ [section_header limit Metric.lhs_cover], Raise IndexError)).
Proof.
  split.
  - intros e He. unfold summarize. by rewrite He.
  - intros rs Hrs Hne Hlimit Hbad. unfold summarize. rewrite Hrs.
    unfold ASSOCIATION_METRICS. cbn [summarize_metrics].
    assert (metric_lines self limit rs Metric.lhs_cover = Raise IndexError) as ->;
      [|by rewrite <- app_assoc].
    unfold metric_lines.
    pose proof (top_rules_by_subseteq rs limit Metric.lhs_cover) as Hsub.
    assert (top_rules_by rs limit Metric.lhs_cover ≠ []) as Htop.
    { unfold top_rules_by, py_slice_to.
      destruct (Z.ltb_spec (limit * 2) 0) as [?|_]; [lia|].
      intros Hnil%(f_equal length). rewrite length_take, sorted_desc_length in Hnil.
      destruct rs; [done|]. simpl in Hnil. lia. }
    destruct (top_rules_by rs limit Metric.lhs_cover) as [|rule top] eqn:Heq; [done|].
    cbn [emit_loop]. rewrite render_out_of_range; [done|].
    eapply Forall_forall in Hbad; [exact Hbad|]. apply Hsub. by left.
Qed.

Lemma summarize_failures_witness :
  summarize (Sample.explorer [Sample.milk] [Sample.r1]) ["earlier output"] 10
    None None None None None None
  = (["earlier output"; "Total number of rules: 1" +:+ nl;
      section_header 10 Metric.lhs_cover], Raise IndexError).
Proof.
  apply (proj2 (summarize_failures (Sample.explorer [Sample.milk] [Sample.r1])
                  ["earlier output"] 10 None None None None None None) [Sample.r1]).
  - reflexivity.
  - discriminate.
  - lia.
  - constructor; [|constructor].
    apply Exists_cons_tl. left. unfold in_range. simpl. lia.
Defined.

Lemma pair_scan_mirrored (rule : AssociationRule) (metric_string : string)
    (top_rules : list AssociationRule) :
  (pair_scan rule metric_string top_rules).2 = "<->"
  ↔ Exists (λ item, mirrors rule metric_string item = true) top_rules.
Proof.
  unfold pair_scan.
  set (acc := ("Rule " +:+ rule_id rule +:+ ": ", "->")).
  assert (Hacc : acc.2 = "<->" ↔ False) by (split; [discriminate|done]).
  enough (∀ acc : string * string,
            (fold_left (λ acc item,
               if mirrors rule metric_string item
               then ("Rules " +:+ rule_id rule +:+ ", " +:+ rule_id item +:+ ": ", "<->")
               else acc) top_rules acc).2 = "<->"
            ↔ acc.2 = "<->" ∨ Exists (λ item, mirrors rule metric_string item = true) top_rules)
    as Hgen by (rewrite Hgen, Hacc; tauto).
  clear. induction top_rules as [|item top IH]; intros acc; cbn [fold_left].
  - rewrite Exists_nil. tauto.
  - rewrite IH, Exists_cons. destruct (mirrors rule metric_string item) eqn:Hm; simpl.
    + tauto.
    + split; [intros [?|?]|intros [?|[?|?]]]; auto; discriminate.
Qed.

(** X9.  A candidate gets the connector [<->] exactly when a candidate is its
    mirror and prints the same metrics. *)
Theorem render_bidirectional (self : Association)
    (top_rules : list AssociationRule) (rule : AssociationRule) (c : candidate) :
  render self top_rules rule = Ok c →
  (operator c = "<->" ↔
     ∃ item, item ∈ top_rules ∧ lhs item = rhs rule ∧ rhs item = lhs rule
             ∧ get_metric_string item false = get_metric_string rule false)
  ∧ (operator c = "->" ↔
     ¬ ∃ item, item ∈ top_rules ∧ lhs item = rhs rule ∧ rhs item = lhs rule
               ∧ get_metric_string item false = get_metric_string rule false).
Proof.
  intros Hc.
  assert (Hop : operator c = (pair_scan rule (get_metric_string rule false) top_rules).2).
  { unfold render in Hc.
    destruct (describe_list self (to_CSV rule)) as [rule_row described].
    apply bind_Ok_inv in Hc as (_ & _ & Hc).
    destruct (pair_scan rule (get_metric_string rule false) top_rules) as [label op].
    apply bind_Ok_inv in Hc as (antecedent & _ & Hc).
    by apply bind_Ok_inv in Hc as (consequent & _ & [= <-]). }
  assert (Hiff : operator c = "<->" ↔
     ∃ item, item ∈ top_rules ∧ lhs item = rhs rule ∧ rhs item = lhs rule
             ∧ get_metric_string item false = get_metric_string rule false).
  { rewrite Hop, pair_scan_mirrored, Exists_exists.
    split; intros (item & Hin & Hm); exists item; split; try done.
    - unfold mirrors in Hm. rewrite !andb_true_iff, !bool_decide_eq_true in Hm.
      destruct Hm as [[H1 H2] H3]. repeat split; [by symmetry ..|].
      symmetry. exact H3.
    - unfold mirrors. rewrite !andb_true_iff, !bool_decide_eq_true.
      destruct Hm as (H1 & H2 & H3). repeat split; [by symmetry ..|].
      symmetry. exact H3. }
  split; [exact Hiff|]. rewrite <- Hiff.
  destruct (render_operator _ _ _ _ Hc) as [->| ->]; split; done.
Qed.

Lemma render_bidirectional_witness :
  ∃ c, render Sample.mirrored [Sample.a; Sample.b] Sample.a = Ok c
       ∧ operator c = "<->".
Proof.
  assert (∃ c, render Sample.mirrored [Sample.a; Sample.b] Sample.a = Ok c)
    as [c Hc] by (eexists; vm_compute; reflexivity).
  exists c. split; [exact Hc|].
  apply (proj1 (render_bidirectional _ _ _ _ Hc)).
  exists Sample.b. repeat split. right. left.
Defined.

Lemma emit_loop_lines (self : Association) (limit : Z)
    (top_rules todo : list AssociationRule) (st st' : loop_state) :
  emit_loop self limit top_rules todo st = Ok st' →
  ∃ chosen cs,
    chosen `sublist_of` todo
    ∧ Forall2 (λ rule c, render self top_rules rule = Ok c) chosen cs
    ∧ out_rules st' = out_rules st ++ (emitted_line <$> cs)
    ∧ ref_rules st' = ref_rules st ++ (out_rule <$> cs).
Proof.
  revert st; induction todo as [|rule todo IH]; intros st; cbn [emit_loop].
  - intros [= <-]. exists [], []. by rewrite !app_nil_r.
  - intros Hr. apply bind_Ok_inv in Hr as (c & Hc & Hr).
    destruct (accepted c st).
    + destruct (limit <? counter (emit c st)).
      * injection Hr as <-. exists [rule], [c]. split; [|by repeat constructor].
        constructor. apply sublist_nil_l.
      * apply IH in Hr as (chosen & cs & Hsub & Hcs & Hout & Href).
        exists (rule :: chosen), (c :: cs). rewrite Hout, Href.
        cbn [emit out_rules ref_rules fmap list_fmap]. rewrite <- !app_assoc.
        split; [by constructor|]. split; [by constructor|done].
    + apply IH in Hr as (chosen & cs & Hsub & Hcs & Hout & Href).
      exists chosen, cs. split; [by constructor|done].
Qed.

(** X8.  The lines of a section are lines of rules that were given to it:
    they are the lines of some of the candidates, one line for each, in
    the order of the candidates. *)
Theorem metric_lines_from_rules (self : Association) (limit : Z)
    (rules : list AssociationRule) (metric : Metric.t) (lines : list string) :
  metric_lines self limit rules metric = Ok lines →
  ∃ chosen,
    chosen `sublist_of` top_rules_by rules limit metric
    ∧ chosen ⊆ rules
    ∧ Forall2 (λ rule line, ∃ c,
                 render self (top_rules_by rules limit metric) rule = Ok c
                 ∧ line = INDENT +:+ INDENT +:+ rule_id_string c +:+ out_rule c)
        chosen lines.
Proof.
  unfold metric_lines. intros Hr.
  apply bind_Ok_inv in Hr as (st & Hst & [= <-]).
  apply emit_loop_lines in Hst as (chosen & cs & Hsub & Hcs & -> & _).
  exists chosen. split; [exact Hsub|]. split.
  - intros rule Hrule. eapply top_rules_by_subseteq, sublist_subseteq; eauto.
  - simpl. apply Forall2_fmap_r. eapply Forall2_impl; [exact Hcs|].
    intros rule c Hc. by exists c.
Qed.

Lemma metric_lines_from_rules_witness :
  ∃ chosen,
    chosen `sublist_of` top_rules_by (rules Sample.mirrored) 10 Metric.lift
    ∧ chosen ⊆ rules Sample.mirrored
    ∧ Forall2 (λ rule line, ∃ c,
                 render Sample.mirrored
                   (top_rules_by (rules Sample.mirrored) 10 Metric.lift) rule = Ok c
                 ∧ line = INDENT +:+ INDENT +:+ rule_id_string c +:+ out_rule c)
        chosen
        ["        Rules 00000a, 00000b: bread <-> eggs [Coverage=12.35% (50); Support=0.05; Confidence=80.00%; Leverage=0.01; Lift=1.5; p-value=1e-05]"].
Proof.
  apply (metric_lines_from_rules Sample.mirrored 10 (rules Sample.mirrored) Metric.lift).
  vm_compute. reflexivity.
Defined.

(** With a limit that the counter has reached, the loop stops at the
    first line it emits. *)
Lemma emit_loop_negative_limit (self : Association) (limit : Z)
    (top_rules todo : list AssociationRule) (st st' : loop_state) :
  limit ≤ counter st →
  emit_loop self limit top_rules todo st = Ok st' →
  (length (out_rules st') ≤ S (length (out_rules st)))%nat.
Proof.
  intros Hlimit. revert st Hlimit.
  induction todo as [|rule todo IH]; intros st Hlimit; cbn [emit_loop].
  - intros [= <-]. lia.
  - intros Hr. apply bind_Ok_inv in Hr as (c & _ & Hr).
    destruct (accepted c st); [|by apply IH].
    destruct (Z.ltb_spec limit (counter (emit c st))) as [_|Hge].
    + injection Hr as <-. cbn [emit out_rules]. rewrite length_app. simpl. lia.
    + cbn [emit counter] in Hge. lia.
Qed.

(** X7.  A negative limit is not refused: the candidates are all the rules
    but the last [2 * |limit|] of the sort, and the section has at most
    one line. *)
Theorem metric_lines_negative_limit (self : Association) (limit : Z)
    (rules : list AssociationRule) (metric : Metric.t) (lines : list string) :
  limit < 0 →
  metric_lines self limit rules metric = Ok lines →
  (length lines ≤ 1)%nat
  ∧ length (top_rules_by rules limit metric)
    = (length rules - Z.to_nat (- (limit * 2)))%nat.
Proof.
  intros Hlimit Hr. split.
  - unfold metric_lines in Hr. apply bind_Ok_inv in Hr as (st & Hst & [= <-]).
    apply emit_loop_negative_limit in Hst; [exact Hst | simpl; lia].
  - unfold top_rules_by, py_slice_to.
    destruct (Z.ltb_spec (limit * 2) 0) as [_|?]; [|lia].
    rewrite length_take, sorted_desc_length. lia.
Qed.

Lemma metric_lines_negative_limit_witness :
  ∃ lines,
    metric_lines Sample.grocery (-1) (Sample.r1 :: Sample.s1 :: rules Sample.grocery)
      Metric.lift = Ok lines
    ∧ (length lines ≤ 1)%nat
    ∧ length (top_rules_by (Sample.r1 :: Sample.s1 :: rules Sample.grocery) (-1)
                Metric.lift) = 2%nat.
Proof.
  assert (∃ lines, metric_lines Sample.grocery (-1)
                     (Sample.r1 :: Sample.s1 :: rules Sample.grocery) Metric.lift
                   = Ok lines) as [lines Hlines] by (eexists; vm_compute; reflexivity).
  exists lines. split; [exact Hlines|].
  exact (metric_lines_negative_limit Sample.grocery (-1)
           (Sample.r1 :: Sample.s1 :: rules Sample.grocery) Metric.lift lines
           ltac:(lia) Hlines).
Defined.

(** ** Further properties: [rules_CSV] *)
Lemma describe_rows_Ok (self : Association) (rs : list AssociationRule) :
  Forall (λ rule, Forall (in_range self) (lhs rule ++ rhs rule)) rs →
  map_loop (λ rule,
      let '(rule_row, described) := describe_list self (to_CSV rule) in
      _ ← described; Ok rule_row) rs
  = Ok (described_row self <$> rs).
Proof.
  induction 1 as [|rule rs Hrule _ IH]; [done|].
  cbn [map_loop]. rewrite (describe_list_in_range _ _ Hrule), !bind_Ok, IH.
  reflexivity.
Qed.

Lemma describe_rows_Raise (self : Association) (rs : list AssociationRule) :
  Exists (λ rule, Exists (λ i, ¬ in_range self i) (lhs rule ++ rhs rule)) rs →
  map_loop (λ rule,
      let '(rule_row, described) := describe_list self (to_CSV rule) in
      _ ← described; Ok rule_row) rs
  = Raise IndexError.
Proof.
  induction rs as [|rule rs IH]; intros Hbad; [by apply Exists_nil in Hbad|].
  cbn [map_loop].
  destruct (decide (Forall (in_range self) (lhs rule ++ rhs rule))) as [Hrule|Hrule].
  - rewrite (describe_list_in_range _ _ Hrule), !bind_Ok, IH; [done|].
    apply Exists_cons in Hbad as [Hbad|Hbad]; [|done].
    exfalso. apply Exists_exists in Hbad as (i & Hi & Hbad).
    by eapply Forall_forall in Hrule.
  - apply not_Forall_Exists in Hrule; [|apply _].
    pose proof (describe_list_out_of_range self rule Hrule) as Hr.
    destruct (describe_list self (to_CSV rule)) as [row r]. simpl in Hr.
    by rewrite Hr.
Qed.

(** X14.  With well-formed data and a file name, [rules_CSV] writes the header
    and then one described row per rule that [get_rules] returns, in
    their order. *)
Theorem rules_CSV_rows (self : Association) (file_name : string)
    (min_leverage min_strength min_support min_p_value : option float)
    (item_list : option (list pyobj))
    (filter_function : option (AssociationRule → bool)) :
  indices_in_range self →
  from_option resolvable True item_list →
  ∃ rs,
    get_rules self min_leverage min_strength min_support min_p_value
      item_list filter_function = Ok rs
    ∧ rules_CSV self (Some file_name) min_leverage min_strength min_support
        min_p_value item_list filter_function
      = Ok ((CStr <$> RULE_HEADERS) :: (described_row self <$> rs)).
Proof.
  intros Hrange Hil.
  pose proof (get_rules_returns self min_leverage min_strength min_support
                min_p_value item_list filter_function Hil) as Hrs.
  eexists. split; [exact Hrs|].
  unfold rules_CSV. rewrite Hrs, bind_Ok, describe_rows_Ok; [reflexivity|].
  apply Forall_forall. intros rule (_ & Hrule)%list_elem_of_filter.
  by eapply Forall_forall in Hrange.
Qed.

Lemma rules_CSV_rows_witness :
  ∃ rs,
    get_rules Sample.grocery None None None None (Some [PItem Sample.eggs]) None = Ok rs
    ∧ rules_CSV Sample.grocery (Some "rules.csv") None None None None
        (Some [PItem Sample.eggs]) None
      = Ok ((CStr <$> RULE_HEADERS) :: (described_row Sample.grocery <$> rs)).
Proof.
  apply (rules_CSV_rows Sample.grocery "rules.csv" None None None None
           (Some [PItem Sample.eggs]) None).
  - repeat constructor; vm_compute; intros; discriminate.
  - by repeat constructor.
Defined.

(** X15.  The file name is looked at last: an exception of [get_rules] or of
    [describe] is raised whatever the file name is, and a missing file
    name is reported, with [ValueError], only when the rules were
    filtered and described. *)
Theorem rules_CSV_errors (self : Association) (file_name : option string)
    (min_leverage min_strength min_support min_p_value : option float)
    (item_list : option (list pyobj))
    (filter_function : option (AssociationRule → bool)) :
  (∀ e,
     get_rules self min_leverage min_strength min_support min_p_value
       item_list filter_function = Raise e →
     rules_CSV self file_name min_leverage min_strength min_support min_p_value
       item_list filter_function = Raise e)
  ∧ (∀ rs,
       get_rules self min_leverage min_strength min_support min_p_value
         item_list filter_function = Ok rs →
       Exists (λ rule, Exists (λ i, ¬ in_range self i) (lhs rule ++ rhs rule)) rs →
       rules_CSV self file_name min_leverage min_strength min_support min_p_value
         item_list filter_function = Raise IndexError)
  ∧ (∀ rs,
       get_rules self min_leverage min_strength min_support min_p_value
         item_list filter_function = Ok rs →
       Forall (λ rule, Forall (in_range self) (lhs rule ++ rhs rule)) rs →
       file_name = None →
       rules_CSV self file_name min_leverage min_strength min_support min_p_value
         item_list filter_function
       = Raise (ValueError "A valid file name is required to store the rules.")).
Proof.
  unfold rules_CSV. split; [|split].
  - by intros e ->.
  - intros rs -> Hbad. by rewrite bind_Ok, describe_rows_Raise.
  - intros rs -> Hrs ->. by rewrite bind_Ok, describe_rows_Ok.
Qed.

Lemma rules_CSV_errors_witness :
  rules_CSV Sample.grocery None None None None None (Some []) None = Raise IndexError
  ∧ rules_CSV (Sample.explorer [Sample.milk] [Sample.r1]) None
      None None None None None None = Raise IndexError
  ∧ rules_CSV Sample.grocery None None None None None None None
    = Raise (ValueError "A valid file name is required to store the rules.").
Proof.
  split; [|split].
  - apply (proj1 (rules_CSV_errors Sample.grocery None None None None None
                    (Some []) None)).
    reflexivity.
  - apply (proj1 (proj2 (rules_CSV_errors (Sample.explorer [Sample.milk] [Sample.r1])
                           None None None None None None None)) [Sample.r1]).
    + reflexivity.
    + left. apply Exists_cons_tl. left. unfold in_range. simpl. lia.
  - apply (proj2 (proj2 (rules_CSV_errors Sample.grocery None None None None None
                           None None)) (rules Sample.grocery)).
    + reflexivity.
    + repeat constructor; vm_compute; intros; discriminate.
    + reflexivity.
Defined.

Lemma metric_lines_bound_witness :
  ∃ lines,
    metric_lines Sample.grocery 1 (rules Sample.grocery) Metric.lift = Ok lines
    ∧ Z.of_nat (length lines) ≤ 1 + 1 ∧ Z.of_nat (length lines) ≤ 2 * 1.
Proof.
  assert (∃ lines, metric_lines Sample.grocery 1 (rules Sample.grocery) Metric.lift
                   = Ok lines) as [lines Hlines] by (eexists; vm_compute; reflexivity).
  exists lines. split; [exact Hlines|].
  exact (metric_lines_bound Sample.grocery 1 (rules Sample.grocery) Metric.lift lines
           ltac:(lia) Hlines).
Defined.

(** ** Further properties: defaults and what is never read *)

(** X4.  Called without argument, [get_rules] returns every stored rule, in
    stored order, whatever the rules are. *)
Theorem get_rules_no_argument (self : Association) :
  get_rules self None None None None None None = Ok (rules self)
  ∧ ∀ rule, admitted self None None None None None None rule.
Proof. split; [apply get_rules_unfiltered | by repeat split]. Qed.

(** X16.  The metric string reads the six attributes of [ASSOCIATION_METRICS]
    and nothing else: two rules that agree on them have the same string,
    whatever their identifiers, their sides, their consequent coverage
    and the [reverse] flags. *)
Theorem get_metric_string_reads_six_metrics (rule rule' : AssociationRule)
    (reverse reverse' : bool) :
  lhs_cover rule = lhs_cover rule' → support rule = support rule' →
  confidence rule = confidence rule' → leverage rule = leverage rule' →
  lift rule = lift rule' → p_value rule = p_value rule' →
  get_metric_string rule reverse = get_metric_string rule' reverse'.
Proof.
  intros Hc Hs Hco Hle Hli Hp. apply get_metric_string_ext.
  intros []; simpl; congruence.
Qed.

Lemma get_metric_string_reads_six_metrics_witness :
  get_metric_string Sample.r1 true
  = get_metric_string
      {| rule_id := "00002a"; lhs := [2]; rhs := [0; 1];
         lhs_cover := Pair 0.12345 50; rhs_cover := Scalar 0.75;
         support := 0.05; confidence := 0.8; leverage := 0.01; lift := 1.5;
         p_value := 0.00001 |} false.
Proof.
  exact (get_metric_string_reads_six_metrics Sample.r1 _ true false
           eq_refl eq_refl eq_refl eq_refl eq_refl eq_refl).
Defined.
